(** * cache_manager: a pickle based cache on disk, keyed by SHA-256 digests

    Shallow embedding of [cache_manager/cache_manager.py] (class
    [CacheManager]) and of the parts of the Python runtime it calls:
    [hashlib.sha256], [os.path.join], [os.path.isfile], [os.path.isdir],
    [open], [os.remove] and [pickle]. *)

From Stdlib Require Import ZArith Lia List.
From Stdlib.Strings Require Import String Ascii Byte.
From stdpp Require Import gmap strings list fin_maps.

(** ** hashlib.sha256

    The hash of the runtime, written out after FIPS 180-4.  A word is a [Z]
    in [0, 2^32); every operation that can leave that range is followed by
    its reduction. *)
Module SHA256.
Local Open Scope Z_scope.

Definition wrap32 (x : Z) : Z := x mod 2 ^ 32.

Definition add32 (x y : Z) : Z := wrap32 (x + y).

Definition not32 (x : Z) : Z := Z.lxor x (2 ^ 32 - 1).

Definition rotr (n x : Z) : Z :=
  Z.lor (Z.shiftr x n) (wrap32 (Z.shiftl x (32 - n))).

Definition Ch (x y z : Z) : Z := Z.lxor (Z.land x y) (Z.land (not32 x) z).

Definition Maj (x y z : Z) : Z :=
  Z.lxor (Z.lxor (Z.land x y) (Z.land x z)) (Z.land y z).

Definition bsig0 (x : Z) : Z := Z.lxor (Z.lxor (rotr 2 x) (rotr 13 x)) (rotr 22 x).
Definition bsig1 (x : Z) : Z := Z.lxor (Z.lxor (rotr 6 x) (rotr 11 x)) (rotr 25 x).
Definition ssig0 (x : Z) : Z := Z.lxor (Z.lxor (rotr 7 x) (rotr 18 x)) (Z.shiftr x 3).
Definition ssig1 (x : Z) : Z := Z.lxor (Z.lxor (rotr 17 x) (rotr 19 x)) (Z.shiftr x 10).

(** The sixty-four round constants. *)
Definition K256 : list Z :=
  [ 0x428A2F98 ; 0x71374491 ; 0xB5C0FBCF ; 0xE9B5DBA5
  ; 0x3956C25B ; 0x59F111F1 ; 0x923F82A4 ; 0xAB1C5ED5
  ; 0xD807AA98 ; 0x12835B01 ; 0x243185BE ; 0x550C7DC3
  ; 0x72BE5D74 ; 0x80DEB1FE ; 0x9BDC06A7 ; 0xC19BF174
  ; 0xE49B69C1 ; 0xEFBE4786 ; 0x0FC19DC6 ; 0x240CA1CC
  ; 0x2DE92C6F ; 0x4A7484AA ; 0x5CB0A9DC ; 0x76F988DA
  ; 0x983E5152 ; 0xA831C66D ; 0xB00327C8 ; 0xBF597FC7
  ; 0xC6E00BF3 ; 0xD5A79147 ; 0x06CA6351 ; 0x14292967
  ; 0x27B70A85 ; 0x2E1B2138 ; 0x4D2C6DFC ; 0x53380D13
  ; 0x650A7354 ; 0x766A0ABB ; 0x81C2C92E ; 0x92722C85
  ; 0xA2BFE8A1 ; 0xA81A664B ; 0xC24B8B70 ; 0xC76C51A3
  ; 0xD192E819 ; 0xD6990624 ; 0xF40E3585 ; 0x106AA070
  ; 0x19A4C116 ; 0x1E376C08 ; 0x2748774C ; 0x34B0BCB5
  ; 0x391C0CB3 ; 0x4ED8AA4A ; 0x5B9CCA4F ; 0x682E6FF3
  ; 0x748F82EE ; 0x78A5636F ; 0x84C87814 ; 0x8CC70208
  ; 0x90BEFFFA ; 0xA4506CEB ; 0xBEF9A3F7 ; 0xC67178F2 ].

(** The eight words of a hash value, also used for the working variables
    of a round. *)
Record words8 : Type := W8
  { wa : Z ; wb : Z ; wc : Z ; wd : Z ; we : Z ; wf : Z ; wg : Z ; wh : Z }.

Definition initial_hash : words8 :=
  W8 0x6A09E667 0xBB67AE85 0x3C6EF372 0xA54FF53A
     0x510E527F 0x9B05688C 0x1F83D9AB 0x5BE0CD19.

(** Padding: the byte 0x80, zero bytes up to 56 modulo 64, and the length
    of the message in bits as a big-endian 64-bit number. *)
Definition be_bytes (width : nat) (x : Z) : list Z :=
  map (fun i => Z.land (Z.shiftr x (8 * Z.of_nat i)) 255) (rev (seq 0 width)).

Definition pad (msg : list Z) : list Z :=
  let len := Z.of_nat (length msg) in
  let zeros := Z.to_nat ((55 - len) mod 64) in
  msg ++ [128] ++ repeat 0 zeros ++ be_bytes 8 ((8 * len) mod 2 ^ 64).

Definition word_of_bytes (bs : list Z) : Z :=
  fold_left (fun acc b => Z.lor (Z.shiftl acc 8) b) bs 0.

(** The sixteen words of the [i]-th 64-byte block. *)
Definition block_words (padded : list Z) (i : nat) : list Z :=
  map (fun j => word_of_bytes (firstn 4 (skipn (64 * i + 4 * j) padded))) (seq 0 16).

(** Message schedule: [W_t] for [t] from 16 to 63 is computed from the
    words before it. *)
Definition next_word (w : list Z) : Z :=
  let t := length w in
  let at_ (k : nat) := nth (t - k) w 0 in
  add32 (add32 (add32 (ssig1 (at_ 2%nat)) (at_ 7%nat)) (ssig0 (at_ 15%nat))) (at_ 16%nat).

Fixpoint extend (n : nat) (w : list Z) : list Z :=
  match n with
  | O => w
  | S n' => extend n' (w ++ [next_word w])
  end.

Definition schedule (block : list Z) : list Z := extend 48 block.

Definition round (v : words8) (kw : Z * Z) : words8 :=
  let t1 := add32 (add32 (add32 (add32 (wh v) (bsig1 (we v))) (Ch (we v) (wf v) (wg v)))
                         (fst kw)) (snd kw) in
  let t2 := add32 (bsig0 (wa v)) (Maj (wa v) (wb v) (wc v)) in
  W8 (add32 t1 t2) (wa v) (wb v) (wc v) (add32 (wd v) t1) (we v) (wf v) (wg v).

Definition add_words (x y : words8) : words8 :=
  W8 (add32 (wa x) (wa y)) (add32 (wb x) (wb y)) (add32 (wc x) (wc y))
     (add32 (wd x) (wd y)) (add32 (we x) (we y)) (add32 (wf x) (wf y))
     (add32 (wg x) (wg y)) (add32 (wh x) (wh y)).

Definition compress (h : words8) (block : list Z) : words8 :=
  add_words h (fold_left round (combine K256 (schedule block)) h).

Definition hash_words (msg : list Z) : words8 :=
  let padded := pad msg in
  fold_left (fun h i => compress h (block_words padded i))
            (seq 0 (length padded / 64)) initial_hash.

(** The digest: the eight words, each as four big-endian bytes. *)
Definition digest_of (h : words8) : list Z :=
  be_bytes 4 (wa h) ++ be_bytes 4 (wb h) ++ be_bytes 4 (wc h) ++ be_bytes 4 (wd h) ++
  be_bytes 4 (we h) ++ be_bytes 4 (wf h) ++ be_bytes 4 (wg h) ++ be_bytes 4 (wh h).

Definition hex_digit (n : Z) : ascii :=
  match n with
  | 0 => "0" | 1 => "1" | 2 => "2" | 3 => "3" | 4 => "4" | 5 => "5" | 6 => "6"
  | 7 => "7" | 8 => "8" | 9 => "9" | 10 => "a" | 11 => "b" | 12 => "c"
  | 13 => "d" | 14 => "e" | _ => "f"
  end%char.

(** [bytes.hex()]: two lower-case digits per byte. *)
Fixpoint hex (bs : list Z) : string :=
  match bs with
  | [] => EmptyString
  | b :: rest =>
      String (hex_digit (Z.land (Z.shiftr b 4) 15))
        (String (hex_digit (Z.land b 15)) (hex rest))
  end.

(** [sha256(data)] is the hash object fed with [data]; [hexdigest] reads
    its digest in hexadecimal. *)
Definition sha256 (data : list byte) : words8 :=
  hash_words (map (fun b => Z.of_N (Byte.to_N b)) data).

Definition hexdigest (h : words8) : string := hex (digest_of h).

End SHA256.

(** ** Outcomes, exceptions and programs

    A call either returns a value or raises.  The exceptions are the ones
    the runtime raises under the methods of [CacheManager], and
    [Exception] for whatever a cached function raises itself. *)
Inductive exn : Type :=
| AssertionError
| FileNotFoundError
| IsADirectoryError
| NotADirectoryError
| PicklingError
| UnpicklingError
| EOFError
| AttributeError
| TypeError
| ValueError
| OverflowError
| UnicodeDecodeError
| UnicodeEncodeError
| Exception (msg : string).

Inductive result (A : Type) : Type :=
| Return (a : A)
| Raise (e : exn).
Arguments Return {A} a.
Arguments Raise {A} e.

(** What is at a path: a regular file with its bytes, or a directory. *)
Inductive node : Type :=
| File (content : list byte)
| Dir.

(** The state a program runs in: the file system, a map from paths (looked
    up as they are written) to nodes; the state [heap] that the cached
    functions themselves read and write; and [calls], a counter of the
    calls made to cached functions, kept only to state how often one ran. *)
Record world (U : Type) : Type := World
  { disk : gmap string node ; heap : U ; calls : nat }.
Arguments World {U} disk heap calls.
Arguments disk {U} w.
Arguments heap {U} w.
Arguments calls {U} w.

Definition py (U A : Type) : Type := world U -> result A * world U.

Definition ret {U A} (a : A) : py U A := fun w => (Return a, w).

Definition raise {U A} (e : exn) : py U A := fun w => (Raise e, w).

Definition bind {U A B} (m : py U A) (k : A -> py U B) : py U B :=
  fun w =>
    match m w with
    | (Return a, w') => k a w'
    | (Raise e, w') => (Raise e, w')
    end.

Notation "'let*' x := m 'in' k" := (bind m (fun x => k))
  (at level 10, x name, m at level 200, k at level 200).

Definition set_disk {U} (d : gmap string node) (w : world U) : world U :=
  World d (heap w) (calls w).

(** ** os.path and files *)
Module os.

Definition slash : ascii := "/"%char.

Definition startswith_sep (s : string) : bool :=
  match s with
  | String c _ => bool_decide (c = slash)
  | EmptyString => false
  end.

Fixpoint endswith_sep (s : string) : bool :=
  match s with
  | EmptyString => false
  | String c EmptyString => bool_decide (c = slash)
  | String _ rest => endswith_sep rest
  end.

(** [posixpath.join(a, b)]: [b] alone when it is absolute or [a] is empty,
    otherwise [a] and [b] with exactly one separator added when [a] has
    none at its end. *)
Definition join (a b : string) : string :=
  if startswith_sep b || bool_decide (a = "") then b
  else if endswith_sep a then a +:+ b
  else a +:+ "/" +:+ b.

Fixpoint drop_while (f : ascii -> bool) (l : list ascii) : list ascii :=
  match l with
  | [] => []
  | c :: rest => if f c then drop_while f rest else l
  end.

Definition is_sep (c : ascii) : bool := bool_decide (c = slash).

(** [posixpath.dirname(p)]: [p] up to its last separator, without the
    separators at the end of that, unless it is made of separators only. *)
Definition dirname (p : string) : string :=
  let head := rev (drop_while (fun c => negb (is_sep c)) (rev (list_ascii_of_string p))) in
  string_of_list_ascii
    (if forallb is_sep head then head else rev (drop_while is_sep (rev head))).

Section Files.
Context {U : Type}.

Definition isfile (p : string) : py U bool := fun w =>
  (Return match disk w !! p with Some (File _) => true | _ => false end, w).

Definition isdir (p : string) : py U bool := fun w =>
  (Return match disk w !! p with Some Dir => true | _ => false end, w).

(** [open(p, mode="rb")]: the bytes of the file, for [pickle.load] to read.
    Reading and removing look at the path alone: a path under a regular
    file is not told apart from a path where nothing is. *)
Definition open_rb (p : string) : py U (list byte) := fun w =>
  match disk w !! p with
  | Some (File content) => (Return content, w)
  | Some Dir => (Raise IsADirectoryError, w)
  | None => (Raise FileNotFoundError, w)
  end.

(** The directory a new file goes into has to be there; a path without
    a directory part is relative to the current directory. *)
Definition has_parent (d : gmap string node) (p : string) : bool :=
  bool_decide (dirname p = "") ||
  match d !! dirname p with Some Dir => true | _ => false end.

(** [open(p, mode="wb")]: the file is created, or emptied when it is there
    already; the handle returned is the path.  Without the directory of the
    path there is no file to make: NotADirectoryError when a regular file
    is where that directory should be, FileNotFoundError when nothing is. *)
Definition open_wb (p : string) : py U string := fun w =>
  match disk w !! p with
  | Some Dir => (Raise IsADirectoryError, w)
  | _ =>
      if has_parent (disk w) p
      then (Return p, set_disk (<[p := File []]> (disk w)) w)
      else
        match disk w !! dirname p with
        | Some (File _) => (Raise NotADirectoryError, w)
        | _ => (Raise FileNotFoundError, w)
        end
  end.

(** [f.write(data)] on a handle opened for writing. *)
Definition write (f : string) (data : list byte) : py U unit := fun w =>
  (Return tt, set_disk (<[f := File data]> (disk w)) w).

(** [os.remove(p)] *)
Definition remove (p : string) : py U unit := fun w =>
  match disk w !! p with
  | Some (File _) => (Return tt, set_disk (delete p (disk w)) w)
  | Some Dir => (Raise IsADirectoryError, w)
  | None => (Raise FileNotFoundError, w)
  end.

End Files.
End os.

(** ** pickle

    The serialization of the runtime, as an interface: what [pickle.dump]
    writes for an object, and what [pickle.load] makes of some bytes.  Both
    can fail, each with the exception that the runtime raises for that
    object or for those bytes (PicklingError, AttributeError or TypeError
    for an object; UnpicklingError, EOFError and others for bytes). *)
Inductive dumped : Type :=
| Dumped (data : list byte)                   (* the whole pickle was written *)
| DumpFailed (e : exn) (written : list byte). (* [e] raised, after writing this much *)

Class Pickle (V : Type) : Type :=
  { pickle_dumps : V -> dumped
  ; pickle_loads_result : list byte -> result V }.

(** The object that some bytes load to, when they load. *)
Definition pickle_loads {V : Type} `{Pickle V} (data : list byte) : option V :=
  match pickle_loads_result data with
  | Return obj => Some obj
  | Raise _ => None
  end.

(** What is loaded from a complete pickle of [v] is [v]. *)
Class PickleRoundTrip (V : Type) `{Pickle V} : Prop :=
  pickle_round_trip :
    forall (v : V) (data : list byte),
      pickle_dumps v = Dumped data -> pickle_loads data = Some v.

Module pickle.
Section Pickle.
Context {U V : Type} `{Pickle V}.

(** [pickle.dump(obj, f)] *)
Definition dump (obj : V) (f : string) : py U unit :=
  match pickle_dumps obj with
  | Dumped data => os.write f data
  | DumpFailed e written => let* _ := os.write f written in raise e
  end.

(** [pickle.load(f)] *)
Definition load (f : list byte) : py U V :=
  match pickle_loads_result f with
  | Return obj => ret obj
  | Raise e => raise e
  end.

End Pickle.
End pickle.

(** ** class CacheManager *)
Record CacheManager : Type := { cache_folder_path : string }.

(** [s.encode("utf8")]: a key is held as the bytes of its UTF-8 form, so
    encoding it gives those bytes. *)
Definition encode_utf8 (s : string) : list byte := list_byte_of_string s.

Definition str_to_hash (str_to_hash : string) : string :=
  SHA256.hexdigest (SHA256.sha256 (encode_utf8 str_to_hash)).

Definition str_to_filename (self : CacheManager) (s : string) : string :=
  str_to_hash s +:+ ".pickle".

Section Methods.
Context {U V A : Type} `{Pickle V}.

(** A function handed to the cache: called with its arguments, it reads
    and writes its own state and returns or raises. *)
Definition callable : Type := A -> U -> result V * U.

(** [func( *args, **kwargs)] *)
Definition call (func : callable) (args : A) : py U V := fun w =>
  let (r, u) := func args (heap w) in
  (r, World (disk w) u (S (calls w))).

(** [assert isdir(cache_folder_path)], then the attribute is set. *)
Definition __init__ (cache_folder_path : string) : py U CacheManager :=
  let* ok := os.isdir cache_folder_path in
  if ok then ret {| cache_folder_path := cache_folder_path |}
  else raise AssertionError.

Definition has_in_cache (self : CacheManager) (s : string) : py U bool :=
  os.isfile (os.join (cache_folder_path self) (str_to_filename self s)).

Definition retrieve_from_cache (self : CacheManager) (s : string) : py U V :=
  let* f := os.open_rb (os.join (cache_folder_path self) (str_to_filename self s)) in
  pickle.load f.

Definition clear_from_cache (self : CacheManager) (s : string) : py U unit :=
  os.remove (os.join (cache_folder_path self) (str_to_filename self s)).

Definition put_in_cache (self : CacheManager) (s : string) (obj_to_cache : V)
  : py U unit :=
  let* f := os.open_wb (os.join (cache_folder_path self) (str_to_filename self s)) in
  pickle.dump obj_to_cache f.

Definition cachify (self : CacheManager) (s : string) (func : callable) (args : A)
  : py U V :=
  let* hit := has_in_cache self s in
  if hit then retrieve_from_cache self s
  else
    let* return_value := call func args in
    let* _ := put_in_cache self s return_value in
    ret return_value.

(** [memoize(key)] is the decorator; applied to [func] it gives the
    wrapper, which passes its arguments on to [cachify]. *)
Definition memoize (self : CacheManager) (s : string) : callable -> A -> py U V :=
  fun func => fun args => cachify self s func args.

(** The calls a program makes on a manager, and the state that a sequence
    of them leaves, whatever each of them returned or raised. *)
Inductive request : Type :=
| HasInCache (key : string)
| RetrieveFromCache (key : string)
| ClearFromCache (key : string)
| PutInCache (key : string) (obj_to_cache : V)
| Cachify (key : string) (func : callable) (args : A).

Definition serve (self : CacheManager) (w : world U) (r : request) : world U :=
  match r with
  | HasInCache key => snd (has_in_cache self key w)
  | RetrieveFromCache key => snd (retrieve_from_cache self key w)
  | ClearFromCache key => snd (clear_from_cache self key w)
  | PutInCache key obj => snd (put_in_cache self key obj w)
  | Cachify key func args => snd (cachify self key func args w)
  end.

Definition serve_all (self : CacheManager) (rs : list request) (w : world U)
  : world U :=
  fold_left (serve self) rs w.

(** The requests that may write the entry that [key] has: a store or a
    [cachify] under a key with the digest of [key]. *)
Definition stores_under (key : string) (r : request) : Prop :=
  match r with
  | PutInCache k _ | Cachify k _ _ => str_to_hash k = str_to_hash key
  | _ => False
  end.

End Methods.

(** ** The location of an entry

    [locate] is the path the specification gives an entry: the folder
    joined with the digest of the key and the suffix.  The methods above
    build that path themselves at each use. *)
Definition locate (self : CacheManager) (key : string) : string :=
  os.join (cache_folder_path self) (str_to_hash key +:+ ".pickle").

Definition is_hex_digit (c : ascii) : bool :=
  existsb (Ascii.eqb c) (list_ascii_of_string "0123456789abcdef").

(** ** An instance of pickle: protocol 3 on [str] objects

    Enough of pickle to run the cache on the values of the module's own
    tests.  A [str] is written as PROTO 3, BINUNICODE with the length of its
    UTF-8 form in four little-endian bytes, those bytes, BINPUT 0 and STOP.
    A function or a generator cannot be pickled, and nothing is written for
    it: PicklingError for a lambda of a module, AttributeError for a
    function made inside a function, TypeError for a generator.

    Reading follows the unpickler on the opcodes PROTO, BINUNICODE, BINPUT
    and STOP: input that ends where an opcode is due raises EOFError, input
    that ends inside the argument of an opcode, or a STOP with nothing to
    return, raises UnpicklingError, a protocol above 4 raises ValueError and
    a payload that is no UTF-8 raises UnicodeDecodeError; bytes after STOP
    are not read.  The other opcodes make objects that are no [pyobj]; a
    stream with one of them is outside this instance, which answers
    UnpicklingError as for a byte that is no opcode. *)
Module Pickle3.

(** [PyStr s] is the str whose UTF-8 form is [s]. *)
Inductive pyobj : Type :=
| PyStr (s : string)
| PyLambda
| PyLocalFunction
| PyGenerator.

Definition byte_of_N (n : N) : byte := default x00 (Byte.of_N n).

Definition le32 (n : N) : list byte :=
  [ byte_of_N (n mod 256) ; byte_of_N (n / 256 mod 256)
  ; byte_of_N (n / 65536 mod 256) ; byte_of_N (n / 16777216 mod 256) ].

Definition of_le32 (b0 b1 b2 b3 : byte) : N :=
  (Byte.to_N b0 + 256 * Byte.to_N b1 + 65536 * Byte.to_N b2
   + 16777216 * Byte.to_N b3)%N.

Definition header : list byte := [x80; x03; x58].
Definition trailer : list byte := [x71; x00; x2e].

Definition in_range (lo hi : N) (b : byte) : bool :=
  ((lo <=? Byte.to_N b) && (Byte.to_N b <=? hi))%N.

(** Well-formed UTF-8, with the surrogates let through as pickle does
    (errors="surrogatepass"). *)
Fixpoint utf8_valid (bs : list byte) : bool :=
  match bs with
  | [] => true
  | b :: rest =>
      if in_range 0 127 b then utf8_valid rest
      else if in_range 194 223 b then
        match rest with
        | c1 :: rest1 => in_range 128 191 c1 && utf8_valid rest1
        | _ => false
        end
      else if in_range 224 239 b then
        match rest with
        | c1 :: c2 :: rest2 =>
            (if in_range 224 224 b then in_range 160 191 c1 else in_range 128 191 c1)
            && in_range 128 191 c2 && utf8_valid rest2
        | _ => false
        end
      else if in_range 240 244 b then
        match rest with
        | c1 :: c2 :: c3 :: rest3 =>
            (if in_range 240 240 b then in_range 144 191 c1
             else if in_range 244 244 b then in_range 128 143 c1
             else in_range 128 191 c1)
            && in_range 128 191 c2 && in_range 128 191 c3 && utf8_valid rest3
        | _ => false
        end
      else false
  end.

Definition dumps (obj : pyobj) : dumped :=
  match obj with
  | PyStr s =>
      let payload := encode_utf8 s in
      let n := N.of_nat (length payload) in
      if negb (utf8_valid payload) then DumpFailed UnicodeEncodeError []
      else if (n <? 4294967296)%N
      then Dumped (header ++ le32 n ++ payload ++ trailer)
      else DumpFailed OverflowError []
  | PyLambda => DumpFailed PicklingError []
  | PyLocalFunction => DumpFailed AttributeError []
  | PyGenerator => DumpFailed TypeError []
  end.

(** PROTO and its version, when the stream starts with them. *)
Definition read_proto (input : list byte) : exn + list byte :=
  match input with
  | op :: rest =>
      if Byte.eqb op x80 then
        match rest with
        | [] => inl UnpicklingError
        | version :: rest' =>
            if (Byte.to_N version <=? 4)%N then inr rest' else inl ValueError
        end
      else inr input
  | [] => inr []
  end.

(** BINUNICODE: four bytes of length, then as many bytes of UTF-8. *)
Definition read_binunicode (input : list byte) : exn + (string * list byte) :=
  match input with
  | [] => inl EOFError
  | op :: rest =>
      if Byte.eqb op x58 then
        match rest with
        | b0 :: b1 :: b2 :: b3 :: rest' =>
            let n := N.to_nat (of_le32 b0 b1 b2 b3) in
            if (length rest' <? n)%nat then inl UnpicklingError
            else if utf8_valid (take n rest')
            then inr (string_of_list_byte (take n rest'), drop n rest')
            else inl UnicodeDecodeError
        | _ => inl UnpicklingError
        end
      else inl UnpicklingError
  end.

(** BINPUT and its index, when they come next: the object stays where it
    is, and nothing reads the memo afterwards. *)
Definition read_binput (input : list byte) : exn + list byte :=
  match input with
  | op :: rest =>
      if Byte.eqb op x71 then
        match rest with
        | [] => inl UnpicklingError
        | _ :: rest' => inr rest'
        end
      else inr input
  | [] => inr []
  end.

(** STOP: the object read is returned. *)
Definition read_stop (input : list byte) : exn + unit :=
  match input with
  | [] => inl EOFError
  | op :: _ => if Byte.eqb op x2e then inr tt else inl UnpicklingError
  end.

Definition loads (data : list byte) : result pyobj :=
  match read_proto data with
  | inl e => Raise e
  | inr input1 =>
      match read_binunicode input1 with
      | inl e => Raise e
      | inr (s, input2) =>
          match read_binput input2 with
          | inl e => Raise e
          | inr input3 =>
              match read_stop input3 with
              | inl e => Raise e
              | inr _ => Return (PyStr s)
              end
          end
      end
  end.

#[export] Instance pickle3 : Pickle pyobj :=
  {| pickle_dumps := dumps ; pickle_loads_result := loads |}.

End Pickle3.
Export (hints) Pickle3.

(** ** The module's own checks

    The values of the [__main__] block of the module, on a disk that holds
    the working directory and nothing else: the cached function counts its
    runs in its state. *)
Module Tests.
Import Pickle3.

Definition some_folder_path : string := "/home/user/project".

Definition cache_manager : CacheManager :=
  {| cache_folder_path := some_folder_path |}.

Definition start : world nat :=
  World {[ some_folder_path := Dir ]} 0 0.

Definition expensive_function : @callable nat pyobj (list string) :=
  fun args runs => (Return (PyStr (String.concat "" args)), S runs).

Definition failing_function : @callable nat pyobj (list string) :=
  fun _ runs => (Raise (Exception "boom"), S runs).

Definition str_hash_mapping : list (string * string) :=
  [ ("cache_manager", "34d7518f35fb588fcc7768ea21389b823f33e8eb8742a34172fcfff5ec388409")
  ; ("test", "9f86d081884c7d659a2feaa0c55ad015a3bf4f1b2b0b822cd15d6c15b0f00a08")
  ; ("abc", "ba7816bf8f01cfea414140de5dae2223b00361a396177a9cb410ff61f20015ad") ].

Definition test_str_to_hash : bool :=
  forallb (fun kv => bool_decide (str_to_hash (fst kv) = snd kv)) str_hash_mapping.

Definition test_str_to_filename : bool :=
  forallb (fun kv => bool_decide
             (str_to_filename cache_manager (fst kv) = snd kv +:+ ".pickle"))
          str_hash_mapping.

(** One turn of the loop of [test_has_in_cache]: store, look, clear, look. *)
Definition has_in_cache_turn (key : string) : py nat bool :=
  let* _ := put_in_cache cache_manager key (PyStr "a") in
  let* there := has_in_cache cache_manager key in
  let* _ := clear_from_cache cache_manager key in
  let* still := has_in_cache cache_manager key in
  ret (there && negb still).

(** One turn of the loop of [test_retrieve_from_cache]. *)
Definition retrieve_turn (key : string) : py nat bool :=
  let* _ := put_in_cache cache_manager key (PyStr "test") in
  let* retrieved_obj := retrieve_from_cache cache_manager key in
  let* _ := clear_from_cache cache_manager key in
  ret match retrieved_obj with PyStr s => bool_decide (s = "test") | _ => false end.

(** [test_cachify], without the clock: the two results. *)
Definition test_cachify : py nat (pyobj * pyobj) :=
  let args := ["Hello"; " "; "World!"] in
  let* first_expensive_result :=
    cachify cache_manager "expensive_name" expensive_function args in
  let* second_expensive_result :=
    cachify cache_manager "expensive_name" expensive_function args in
  let* _ := clear_from_cache cache_manager "expensive_name" in
  ret (first_expensive_result, second_expensive_result).

(** [test_memoize], without the clock: the decorated function called twice. *)
Definition expensive_function_memoized : list string -> py nat pyobj :=
  memoize cache_manager "expensive_name" expensive_function.

Definition test_memoize : py nat (pyobj * pyobj) :=
  let args := ["Hello"; " "; "World!"] in
  let* first_expensive_result := expensive_function_memoized args in
  let* second_expensive_result := expensive_function_memoized args in
  let* _ := clear_from_cache cache_manager "expensive_name" in
  ret (first_expensive_result, second_expensive_result).

(** A turn passes when it returns [True]. *)
Definition passes (out : result bool * world nat) : bool :=
  match fst out with Return true => true | _ => false end.

Definition hello : list string := ["Hello"; " "; "World!"].
Definition other_args : list string := ["X"; "Y"; "Z"].

(** Calls on other keys, and calls on "expensive_name" that store nothing. *)
Definition other_requests : list (@request nat pyobj (list string)) :=
  [ PutInCache "test" (PyStr "a")
  ; Cachify "abc" expensive_function hello
  ; RetrieveFromCache "expensive_name"
  ; ClearFromCache "expensive_name"
  ; PutInCache "cache_manager" PyLambda
  ; HasInCache "expensive_name" ].

(** The state after the first [cachify] of [test_cachify]. *)
Definition stored : world nat :=
  World (<[ locate cache_manager "expensive_name"
            := File [x80; x03; x58; x0c; x00; x00; x00; x48; x65; x6c; x6c; x6f;
                     x20; x57; x6f; x72; x6c; x64; x21; x71; x00; x2e] ]>
           (disk start)) 1 1.

(** An empty file, as a store whose pickling failed leaves it. *)
Definition emptied : world nat :=
  World (<[ locate cache_manager "expensive_name" := File [] ]> (disk start)) 0 0.

(** A file cut short, as a write that did not finish leaves it. *)
Definition truncated : world nat :=
  World (<[ locate cache_manager "expensive_name"
            := File [x80; x03; x58; x0c; x00; x00; x00; x48; x65] ]>
           (disk start)) 0 0.

End Tests.

(** ** The loops of the module's checks

    [test_has_in_cache], [test_retrieve_from_cache], [test_clear_from_cache]
    and [test_put_in_cache] of the [__main__] block, with the manager and
    the keys they run over ([str_hash_mapping.keys()] there) as parameters.
    A check returns [False] at the first key that fails it, and [True] after
    the last key. *)
Module Harness.
Import Pickle3.

#[export] Instance pyobj_eq_dec : EqDecision pyobj.
Proof. solve_decision. Defined.

Section Harness.
Context {U : Type} (cache_manager : CacheManager).

Fixpoint test_has_in_cache (keys : list string) : py U bool :=
  match keys with
  | [] => ret true
  | key :: rest =>
      let* _ := put_in_cache cache_manager key (PyStr "a") in
      let* there := has_in_cache cache_manager key in
      if negb there then ret false
      else
        let* _ := clear_from_cache cache_manager key in
        let* still := has_in_cache cache_manager key in
        if still then ret false
        else test_has_in_cache rest
  end.

Fixpoint test_retrieve_from_cache (keys : list string) : py U bool :=
  match keys with
  | [] => ret true
  | key :: rest =>
      let obj := PyStr "test" in
      let* _ := put_in_cache cache_manager key obj in
      let* retrieved_obj := retrieve_from_cache cache_manager key in
      if bool_decide (obj <> retrieved_obj) then ret false
      else
        let* _ := clear_from_cache cache_manager key in
        test_retrieve_from_cache rest
  end.

Fixpoint test_clear_from_cache (keys : list string) : py U bool :=
  match keys with
  | [] => ret true
  | key :: rest =>
      let obj := PyStr "test" in
      let* _ := put_in_cache cache_manager key obj in
      let* _ := clear_from_cache cache_manager key in
      let* still := has_in_cache cache_manager key in
      if still then ret false
      else test_clear_from_cache rest
  end.

Fixpoint test_put_in_cache (keys : list string) : py U bool :=
  match keys with
  | [] => ret true
  | key :: rest =>
      let obj := PyStr "test" in
      let* _ := put_in_cache cache_manager key obj in
      let* there := has_in_cache cache_manager key in
      if negb there then ret false
      else
        let* _ := clear_from_cache cache_manager key in
        test_put_in_cache rest
  end.

End Harness.
End Harness.

(** ** More values to run the methods on *)
Module Cases.
Import Pickle3 Tests.

(** A function whose result cannot be pickled, and one with another result
    than [expensive_function]. *)
Definition lambda_function : @callable nat pyobj (list string) :=
  fun _ runs => (Return PyLambda, S runs).

Definition other_function : @callable nat pyobj (list string) :=
  fun args runs => (Return (PyStr (String.concat "-" args)), S runs).

(** The keys of [str_hash_mapping]. *)
Definition keys : list string := ["cache_manager"; "test"; "abc"].

(** A directory where the file of "expensive_name" would go. *)
Definition blocked : world nat :=
  World (<[ locate cache_manager "expensive_name" := Dir ]> (disk start)) 0 0.

(** A disk from which the folder has gone. *)
Definition no_folder : world nat := World ∅ 0 0.

(** A disk where a regular file has taken the place of the folder. *)
Definition folder_is_file : world nat :=
  World {[ some_folder_path := File [] ]} 0 0.

(** The pickles of "Hello World!", of "X-Y-Z" and of "a". *)
Definition hello_pickle : list byte :=
  [x80; x03; x58; x0c; x00; x00; x00; x48; x65; x6c; x6c; x6f;
   x20; x57; x6f; x72; x6c; x64; x21; x71; x00; x2e].

Definition xyz_pickle : list byte :=
  [x80; x03; x58; x05; x00; x00; x00; x58; x2d; x59; x2d; x5a; x71; x00; x2e].

Definition a_pickle : list byte :=
  [x80; x03; x58; x01; x00; x00; x00; x61; x71; x00; x2e].

End Cases.

(** ** Facts about digests and paths *)
Section Digests.

Lemma hex_digit_is_hex (n : Z) : is_hex_digit (SHA256.hex_digit n) = true.
Proof.
  destruct n as [|q|q]; try reflexivity.
  do 4 (destruct q as [q|q|]; try reflexivity).
Qed.

Lemma hex_digit_not_sep (n : Z) : SHA256.hex_digit n <> os.slash.
Proof.
  intros E. pose proof (hex_digit_is_hex n) as Hx.
  rewrite E in Hx. discriminate Hx.
Qed.

Lemma hex_length (bs : list Z) :
  String.length (SHA256.hex bs) = (2 * length bs)%nat.
Proof.
  induction bs as [|b bs IH]; simpl; [reflexivity|].
  rewrite IH. lia.
Qed.

Lemma hex_all_hex (bs : list Z) :
  forallb is_hex_digit (list_ascii_of_string (SHA256.hex bs)) = true.
Proof.
  induction bs as [|b bs IH]; [reflexivity|].
  cbn [SHA256.hex list_ascii_of_string forallb].
  rewrite !hex_digit_is_hex, IH. reflexivity.
Qed.

Lemma digest_of_length (h : SHA256.words8) : length (SHA256.digest_of h) = 32%nat.
Proof. reflexivity. Qed.

Lemma str_to_hash_length (key : string) : String.length (str_to_hash key) = 64%nat.
Proof.
  unfold str_to_hash, SHA256.hexdigest.
  rewrite hex_length, digest_of_length. reflexivity.
Qed.

Lemma str_to_hash_cons (key : string) :
  exists n rest, str_to_hash key = String (SHA256.hex_digit n) rest.
Proof.
  unfold str_to_hash, SHA256.hexdigest.
  destruct (SHA256.digest_of _) as [|b bs] eqn:E.
  - pose proof (digest_of_length (SHA256.sha256 (encode_utf8 key))) as L.
    rewrite E in L. discriminate L.
  - simpl. eauto.
Qed.

Lemma filename_relative (self : CacheManager) (key : string) :
  os.startswith_sep (str_to_filename self key) = false.
Proof.
  unfold str_to_filename.
  destruct (str_to_hash_cons key) as (n & rest & ->).
  simpl. apply bool_decide_eq_false, hex_digit_not_sep.
Qed.

Lemma append_length (x y : string) :
  String.length (x +:+ y) = (String.length x + String.length y)%nat.
Proof. induction x as [|c x IH]; simpl; [reflexivity | by rewrite IH]. Qed.

(** Strings with a common suffix taken off. *)
Lemma append_inv_tail (s x y : string) : x +:+ s = y +:+ s -> x = y.
Proof.
  revert y. induction x as [|c x IH]; intros [|d y] E.
  - reflexivity.
  - apply (f_equal String.length) in E.
    rewrite !append_length in E. simpl in E. lia.
  - apply (f_equal String.length) in E.
    rewrite !append_length in E. simpl in E. lia.
  - injection E as -> E. f_equal. apply IH, E.
Qed.

Lemma join_relative_inj (a b1 b2 : string) :
  os.startswith_sep b1 = false -> os.startswith_sep b2 = false ->
  os.join a b1 = os.join a b2 -> b1 = b2.
Proof.
  unfold os.join. intros -> ->. simpl.
  case_bool_decide; [tauto|].
  destruct (os.endswith_sep a); intros E.
  - by apply String.app_inj in E.
  - apply String.app_inj in E. by apply String.app_inj in E.
Qed.

(** Keys with different digests have different files. *)
Lemma locate_digest_inj (self : CacheManager) (k1 k2 : string) :
  locate self k1 = locate self k2 -> str_to_hash k1 = str_to_hash k2.
Proof.
  intros E. apply (append_inv_tail ".pickle").
  apply (join_relative_inj (cache_folder_path self));
    [apply (filename_relative self k1) | apply (filename_relative self k2) | exact E].
Qed.

(** Characters of an appended string. *)
Lemma list_ascii_of_append (x y : string) :
  list_ascii_of_string (x +:+ y) = list_ascii_of_string x ++ list_ascii_of_string y.
Proof.
  induction x as [|c x IH]; [reflexivity|].
  change (c :: list_ascii_of_string (x +:+ y)
          = c :: (list_ascii_of_string x ++ list_ascii_of_string y)).
  f_equal. exact IH.
Qed.

Lemma drop_while_stop (f : ascii -> bool) (l : list ascii) (c : ascii) rest :
  forallb f l = true -> f c = false ->
  os.drop_while f (l ++ c :: rest) = c :: rest.
Proof.
  intros Hl Hc. induction l as [|a l IH]; cbn.
  - by rewrite Hc.
  - cbn in Hl. apply andb_prop in Hl as [-> Hl]. by apply IH.
Qed.

Lemma forallb_reversed (f : ascii -> bool) (l : list ascii) :
  forallb f (rev l) = forallb f l.
Proof.
  induction l as [|a l IH]; [reflexivity|].
  cbn [rev forallb]. rewrite forallb_app, IH. cbn [forallb].
  rewrite andb_true_r. apply andb_comm.
Qed.

Lemma last_not_sep (s : string) :
  s <> "" -> os.endswith_sep s = false ->
  exists l c, list_ascii_of_string s = l ++ [c] /\ os.is_sep c = false.
Proof.
  induction s as [|a rest IH]; [congruence|]. intros _ Hend.
  destruct rest as [|b r].
  - exists [], a. split; [reflexivity | exact Hend].
  - destruct IH as (l & c & Hl & Hc); [discriminate | exact Hend |].
    exists (a :: l), c. split; [|exact Hc].
    cbn [list_ascii_of_string] in *. by rewrite Hl.
Qed.

(** A file name without separator, joined to a folder that does not end
    in one, has that folder for directory. *)
Lemma dirname_join (folder name : string) :
  folder <> "" -> os.endswith_sep folder = false ->
  forallb (fun c => negb (os.is_sep c)) (list_ascii_of_string name) = true ->
  os.dirname (os.join folder name) = folder.
Proof.
  intros Hne Hend Hname.
  assert (Hrel : os.startswith_sep name = false).
  { destruct name as [|c r]; [reflexivity|]. cbn in Hname |- *.
    apply andb_prop in Hname as [Hc _]. by apply negb_true_iff in Hc. }
  unfold os.join. rewrite Hrel, Hend. cbn [orb].
  rewrite bool_decide_eq_false_2 by exact Hne.
  destruct (last_not_sep folder Hne Hend) as (l & c & Hl & Hc).
  unfold os.dirname. rewrite !list_ascii_of_append, Hl.
  change (list_ascii_of_string "/") with [os.slash].
  rewrite !rev_app_distr. cbn [rev app].
  rewrite <- app_assoc. cbn [app].
  rewrite drop_while_stop;
    [| by rewrite forallb_reversed | reflexivity].
  rewrite forallb_reversed, rev_involutive.
  cbn [forallb os.drop_while]. rewrite Hc.
  assert (Hs : os.is_sep os.slash = true) by reflexivity.
  rewrite Hs. cbn [andb rev]. rewrite rev_involutive, <- Hl.
  apply string_of_list_ascii_of_string.
Qed.

Lemma filename_no_sep (self : CacheManager) (key : string) :
  forallb (fun c => negb (os.is_sep c))
          (list_ascii_of_string (str_to_filename self key)) = true.
Proof.
  unfold str_to_filename. rewrite list_ascii_of_append, forallb_app.
  apply andb_true_intro. split; [|reflexivity].
  unfold str_to_hash, SHA256.hexdigest.
  generalize (SHA256.digest_of (SHA256.sha256 (encode_utf8 key))). intros bs.
  induction bs as [|b bs IH]; [reflexivity|].
  cbn [SHA256.hex list_ascii_of_string forallb]. rewrite IH.
  assert (Hd : forall n, negb (os.is_sep (SHA256.hex_digit n)) = true).
  { intros n. apply negb_true_iff, bool_decide_eq_false, hex_digit_not_sep. }
  by rewrite !Hd.
Qed.

Lemma drop_while_all (f : ascii -> bool) (l : list ascii) :
  forallb f l = true -> os.drop_while f l = [].
Proof.
  induction l as [|a l IH]; [reflexivity|]. cbn.
  intros Hl. apply andb_prop in Hl as [-> Hl]. by apply IH.
Qed.

(** A file name without separator has no directory part. *)
Lemma dirname_bare (name : string) :
  forallb (fun c => negb (os.is_sep c)) (list_ascii_of_string name) = true ->
  os.dirname name = "".
Proof.
  intros Hname. unfold os.dirname.
  rewrite drop_while_all by (by rewrite forallb_reversed). reflexivity.
Qed.

(** The directory of an entry is the folder of the manager. *)
Lemma dirname_locate (self : CacheManager) (key : string) :
  cache_folder_path self <> "" ->
  os.endswith_sep (cache_folder_path self) = false ->
  os.dirname (locate self key) = cache_folder_path self.
Proof.
  intros Hne Hend.
  exact (dirname_join _ _ Hne Hend (filename_no_sep self key)).
Qed.

(** The hexadecimal form loses nothing of the bytes. *)
Lemma nibble_range (x : Z) : (0 <= Z.land x 15 < 16)%Z.
Proof.
  change 15%Z with (Z.ones 4). rewrite Z.land_ones by lia.
  apply Z.mod_pos_bound. reflexivity.
Qed.

Lemma hex_digit_inj (a b : Z) :
  (0 <= a < 16)%Z -> (0 <= b < 16)%Z ->
  SHA256.hex_digit a = SHA256.hex_digit b -> a = b.
Proof.
  intros Ha Hb.
  assert (Ea : (a = 0 \/ a = 1 \/ a = 2 \/ a = 3 \/ a = 4 \/ a = 5 \/ a = 6 \/
                a = 7 \/ a = 8 \/ a = 9 \/ a = 10 \/ a = 11 \/ a = 12 \/ a = 13 \/
                a = 14 \/ a = 15)%Z) by lia.
  assert (Eb : (b = 0 \/ b = 1 \/ b = 2 \/ b = 3 \/ b = 4 \/ b = 5 \/ b = 6 \/
                b = 7 \/ b = 8 \/ b = 9 \/ b = 10 \/ b = 11 \/ b = 12 \/ b = 13 \/
                b = 14 \/ b = 15)%Z) by lia.
  clear Ha Hb.
  repeat (destruct Ea as [-> | Ea]); try subst a;
    repeat (destruct Eb as [-> | Eb]); try subst b;
    intros E; first [reflexivity | discriminate E].
Qed.

Lemma byte_of_nibbles (b c : Z) :
  (0 <= b < 256)%Z -> (0 <= c < 256)%Z ->
  Z.land (Z.shiftr b 4) 15 = Z.land (Z.shiftr c 4) 15 ->
  Z.land b 15 = Z.land c 15 ->
  b = c.
Proof.
  intros Hb Hc. change 15%Z with (Z.ones 4).
  rewrite !Z.land_ones, !Z.shiftr_div_pow2 by lia.
  change (2 ^ 4)%Z with 16%Z. intros Hhi Hlo.
  rewrite (Z.mod_small (b / 16) 16) in Hhi
    by (split; [apply Z.div_pos; lia | apply Z.div_lt_upper_bound; lia]).
  rewrite (Z.mod_small (c / 16) 16) in Hhi
    by (split; [apply Z.div_pos; lia | apply Z.div_lt_upper_bound; lia]).
  rewrite (Z.div_mod b 16), (Z.div_mod c 16) by lia. congruence.
Qed.

Lemma hex_inj (bs cs : list Z) :
  Forall (fun b => 0 <= b < 256)%Z bs ->
  Forall (fun b => 0 <= b < 256)%Z cs ->
  SHA256.hex bs = SHA256.hex cs -> bs = cs.
Proof.
  intros Hbs. revert cs.
  induction Hbs as [|b bs Hb _ IH]; intros cs Hcs; destruct Hcs as [|c cs Hc Hcs];
    cbn [SHA256.hex]; intros E; try discriminate E; [reflexivity|].
  injection E as Ehi Elo Erest.
  apply (hex_digit_inj _ _ (nibble_range _) (nibble_range _)) in Ehi.
  apply (hex_digit_inj _ _ (nibble_range _) (nibble_range _)) in Elo.
  f_equal; [exact (byte_of_nibbles b c Hb Hc Ehi Elo) | exact (IH cs Hcs Erest)].
Qed.

Lemma be_bytes_range (width : nat) (x : Z) :
  Forall (fun b => 0 <= b < 256)%Z (SHA256.be_bytes width x).
Proof.
  unfold SHA256.be_bytes. generalize (rev (seq 0 width)). intros l.
  induction l as [|i l IH]; cbn [map]; constructor; [|exact IH].
  change 255%Z with (Z.ones 8). rewrite Z.land_ones by lia.
  apply Z.mod_pos_bound. reflexivity.
Qed.

Lemma digest_of_range (h : SHA256.words8) :
  Forall (fun b => 0 <= b < 256)%Z (SHA256.digest_of h).
Proof.
  unfold SHA256.digest_of. repeat (apply Forall_app; split); apply be_bytes_range.
Qed.

(** Two keys have the same [str_to_hash] exactly when they have the same
    SHA-256 digest. *)
Lemma str_to_hash_eq_digest (k1 k2 : string) :
  str_to_hash k1 = str_to_hash k2 <->
  SHA256.digest_of (SHA256.sha256 (encode_utf8 k1))
  = SHA256.digest_of (SHA256.sha256 (encode_utf8 k2)).
Proof.
  unfold str_to_hash, SHA256.hexdigest. split.
  - apply hex_inj; apply digest_of_range.
  - intros ->. reflexivity.
Qed.

(** Padding brings the message to whole blocks of 64 bytes, with no block
    more than the byte 0x80 and the length need. *)
Lemma pad_length (msg : list Z) :
  (Z.of_nat (length (SHA256.pad msg)) mod 64 = 0)%Z /\
  (length msg + 9 <= length (SHA256.pad msg) <= length msg + 72)%nat.
Proof.
  unfold SHA256.pad. rewrite !length_app, repeat_length.
  change (length (SHA256.be_bytes 8 ?x)) with 8%nat. cbn [length].
  pose proof (Z.mod_pos_bound (55 - Z.of_nat (length msg)) 64 eq_refl) as Hk.
  split.
  - rewrite !Nat2Z.inj_add, Z2Nat.id by lia.
    pose proof (Z.div_mod (55 - Z.of_nat (length msg)) 64 ltac:(lia)) as Hdm.
    replace (Z.of_nat (length msg) + (Z.of_nat 1
               + ((55 - Z.of_nat (length msg)) mod 64 + Z.of_nat 8)))%Z
      with (64 * (1 - (55 - Z.of_nat (length msg)) / 64))%Z by lia.
    rewrite Z.mul_comm. apply Z.mod_mul. discriminate.
  - lia.
Qed.

End Digests.

(** ** The pickle instance keeps the round trip *)
Module Pickle3Facts.
Import Pickle3.

Lemma to_N_byte_of_N (n : N) : (n < 256)%N -> Byte.to_N (byte_of_N n) = n.
Proof.
  intros Hn. unfold byte_of_N.
  destruct (Byte.of_N n) as [b|] eqn:E.
  - by apply Byte.to_of_N.
  - apply Byte.of_N_None_iff in E. lia.
Qed.

Lemma of_le32_le32 (n : N) :
  (n < 4294967296)%N ->
  of_le32 (byte_of_N (n mod 256)) (byte_of_N (n / 256 mod 256))
          (byte_of_N (n / 65536 mod 256)) (byte_of_N (n / 16777216 mod 256)) = n.
Proof.
  intros Hn. unfold of_le32.
  rewrite !to_N_byte_of_N by (apply N.mod_lt; discriminate).
  pose proof (N.div_mod n 256). pose proof (N.div_mod (n / 256) 256).
  pose proof (N.div_mod (n / 65536) 256).
  assert (n / 65536 = n / 256 / 256)%N as E1
    by (rewrite N.Div0.div_div; reflexivity).
  assert (n / 16777216 = n / 65536 / 256)%N as E2
    by (rewrite N.Div0.div_div; reflexivity).
  assert (n / 16777216 < 256)%N as Hhi
    by (apply N.Div0.div_lt_upper_bound; exact Hn).
  rewrite (N.mod_small (n / 16777216) 256 Hhi).
  rewrite E2 in *. rewrite E1 in *. lia.
Qed.

Lemma loads_complete (version b0 b1 b2 b3 index : byte) (rest : list byte) :
  (Byte.to_N version <= 4)%N ->
  let n := N.to_nat (of_le32 b0 b1 b2 b3) in
  (n <= length rest)%nat ->
  utf8_valid (take n rest) = true ->
  drop n rest = x71 :: index :: [x2e] ->
  loads (x80 :: version :: x58 :: b0 :: b1 :: b2 :: b3 :: rest)
  = Return (PyStr (string_of_list_byte (take n rest))).
Proof.
  intros Hversion n Hlen Hutf Hdrop. unfold loads.
  change (read_proto (x80 :: version :: ?r))
    with (if (Byte.to_N version <=? 4)%N then inr r else @inl exn (list byte) ValueError).
  rewrite (proj2 (N.leb_le _ _) Hversion).
  change (read_binunicode (x58 :: b0 :: b1 :: b2 :: b3 :: rest))
    with (if (length rest <? n)%nat then @inl exn (string * list byte) UnpicklingError
          else if utf8_valid (take n rest)
               then inr (string_of_list_byte (take n rest), drop n rest)
               else inl UnicodeDecodeError).
  rewrite (proj2 (Nat.ltb_ge _ _) Hlen), Hutf, Hdrop. reflexivity.
Qed.

(** What is loaded from the pickle of an object is the object. *)
#[export] Instance pickle3_round_trip : PickleRoundTrip pyobj.
Proof.
  intros [s| | |] data; try discriminate.
  cbn [pickle_dumps pickle3 dumps].
  destruct (utf8_valid (encode_utf8 s)) eqn:Hutf; [|discriminate].
  destruct (N.of_nat (length (encode_utf8 s)) <? 4294967296)%N eqn:Hlen;
    [|discriminate].
  cbn [negb]. intros [= <-]. apply N.ltb_lt in Hlen.
  unfold pickle_loads. cbn [pickle_loads_result pickle3].
  unfold header, le32. cbn [app].
  rewrite loads_complete with (index := x00);
    rewrite ?(of_le32_le32 _ Hlen), ?Nat2N.id.
  - rewrite take_app_length. unfold encode_utf8.
    by rewrite string_of_list_byte_of_string.
  - vm_compute. discriminate.
  - rewrite length_app. lia.
  - by rewrite take_app_length.
  - by rewrite drop_app_length.
Qed.

End Pickle3Facts.
Export (hints) Pickle3Facts.

Arguments os.join : simpl never.
Arguments os.dirname : simpl never.
Arguments str_to_hash : simpl never.
Arguments str_to_filename : simpl never.
Arguments locate : simpl never.

(** ** What each method does, by the path of the entry *)
Section MethodFacts.
Context {U V A : Type} `{Pickle V}.
Implicit Types (self : CacheManager) (key : string) (w : world U) (v : V).

Ltac at_locate self key :=
  change (os.join (cache_folder_path self) (str_to_filename self key))
    with (locate self key) in *.

Lemma has_in_cache_eq self key w :
  has_in_cache self key w =
  (Return match disk w !! locate self key with Some (File _) => true | _ => false end, w).
Proof. reflexivity. Qed.

Lemma loads_result_some (data : list byte) v :
  pickle_loads data = Some v <-> pickle_loads_result data = Return v.
Proof.
  unfold pickle_loads. destruct (pickle_loads_result data); split; congruence.
Qed.

Lemma loads_result_none (data : list byte) :
  pickle_loads data = None <-> exists e, pickle_loads_result data = Raise e.
Proof.
  unfold pickle_loads. destruct (pickle_loads_result data) as [v|e]; split;
    try congruence; eauto. intros [e' He]. discriminate He.
Qed.

Lemma retrieve_from_cache_eq self key w :
  retrieve_from_cache self key w =
  match disk w !! locate self key with
  | Some (File data) => (pickle_loads_result data, w)
  | Some Dir => (Raise IsADirectoryError, w)
  | None => (Raise FileNotFoundError, w)
  end.
Proof.
  unfold retrieve_from_cache, bind, os.open_rb, pickle.load. at_locate self key.
  generalize (locate self key). intros q.
  destruct (disk w !! q) as [[data|]|]; try reflexivity.
  destruct (pickle_loads_result data); reflexivity.
Qed.

Lemma clear_from_cache_eq self key w :
  clear_from_cache self key w =
  match disk w !! locate self key with
  | Some (File _) => (Return tt, set_disk (delete (locate self key) (disk w)) w)
  | Some Dir => (Raise IsADirectoryError, w)
  | None => (Raise FileNotFoundError, w)
  end.
Proof. reflexivity. Qed.

(** [put_in_cache], case by case. *)
Lemma put_in_cache_eq self key v w :
  put_in_cache self key v w =
  match disk w !! locate self key with
  | Some Dir => (Raise IsADirectoryError, w)
  | _ =>
      if os.has_parent (disk w) (locate self key) then
        match pickle_dumps v with
        | Dumped data =>
            (Return tt, set_disk (<[locate self key := File data]> (disk w)) w)
        | DumpFailed e written =>
            (Raise e, set_disk (<[locate self key := File written]> (disk w)) w)
        end
      else
        match disk w !! os.dirname (locate self key) with
        | Some (File _) => (Raise NotADirectoryError, w)
        | _ => (Raise FileNotFoundError, w)
        end
  end.
Proof.
  unfold put_in_cache, bind, os.open_wb, pickle.dump. at_locate self key.
  generalize (locate self key). intros p.
  destruct (disk w !! p) as [[c|]|]; try reflexivity;
    (destruct (os.has_parent (disk w) p);
     [|destruct (disk w !! os.dirname p) as [[c'|]|]; reflexivity]);
    destruct (pickle_dumps v); unfold bind, os.write, raise, set_disk;
    cbn [disk heap calls]; by rewrite insert_insert_eq.
Qed.

(** A store that returns has written the whole pickle of the value. *)
Lemma put_in_cache_inv self key v w w' :
  put_in_cache self key v w = (Return tt, w') ->
  exists data,
    pickle_dumps v = Dumped data /\
    w' = set_disk (<[locate self key := File data]> (disk w)) w.
Proof.
  rewrite put_in_cache_eq. generalize (locate self key). intros p.
  destruct (disk w !! p) as [[c|]|]; try discriminate;
    (destruct (os.has_parent (disk w) p);
     [|destruct (disk w !! os.dirname p) as [[c'|]|]; discriminate]);
    (destruct (pickle_dumps v) as [data|e written]; [|discriminate]);
    intros [= <-]; exists data; split; reflexivity.
Qed.

(** When a store returns: the path is not a directory, its directory is
    there, and the value can be pickled. *)
Lemma put_in_cache_returns self key v w data :
  disk w !! locate self key <> Some Dir ->
  os.has_parent (disk w) (locate self key) = true ->
  pickle_dumps v = Dumped data ->
  put_in_cache self key v w =
  (Return tt, set_disk (<[locate self key := File data]> (disk w)) w).
Proof.
  rewrite put_in_cache_eq. generalize (locate self key). intros p Hnd Hp Hv.
  rewrite Hp, Hv.
  destruct (disk w !! p) as [[c|]|]; congruence.
Qed.

(** In a folder that is a directory, as the constructor requires (and
    written without a separator at its end), the directory of every entry
    is there. *)
Lemma has_parent_locate self key (d : gmap string node) :
  d !! cache_folder_path self = Some Dir ->
  os.endswith_sep (cache_folder_path self) = false ->
  os.has_parent d (locate self key) = true.
Proof.
  intros Hdir Hend. unfold os.has_parent.
  destruct (decide (cache_folder_path self = "")) as [Hempty | Hne].
  - unfold locate, os.join. rewrite Hempty, orb_true_r.
    rewrite dirname_bare by apply (filename_no_sep self key). reflexivity.
  - rewrite (dirname_locate self key Hne Hend), Hdir. apply orb_true_r.
Qed.

(** So a store of a value that can be pickled returns there, unless a
    directory is in the way. *)
Lemma put_in_cache_in_folder self key v w data :
  disk w !! cache_folder_path self = Some Dir ->
  os.endswith_sep (cache_folder_path self) = false ->
  disk w !! locate self key <> Some Dir ->
  pickle_dumps v = Dumped data ->
  put_in_cache self key v w =
  (Return tt, set_disk (<[locate self key := File data]> (disk w)) w).
Proof.
  intros Hdir Hend Hnd Hv.
  exact (put_in_cache_returns self key v w data Hnd
           (has_parent_locate self key (disk w) Hdir Hend) Hv).
Qed.

(** Whatever a store does, it does to the file of its key only. *)
Lemma put_in_cache_frame self key v w (p : string) :
  p <> locate self key ->
  disk (snd (put_in_cache self key v w)) !! p = disk w !! p.
Proof.
  rewrite put_in_cache_eq. generalize (locate self key). intros q Hp.
  destruct (disk w !! q) as [[c|]|]; try reflexivity;
    (destruct (os.has_parent (disk w) q);
     [|destruct (disk w !! os.dirname q) as [[c'|]|]; reflexivity]);
    destruct (pickle_dumps v); unfold set_disk; cbn [snd disk];
    by rewrite lookup_insert_ne.
Qed.

Lemma clear_from_cache_frame self key w (p : string) :
  p <> locate self key ->
  disk (snd (clear_from_cache self key w)) !! p = disk w !! p.
Proof.
  rewrite clear_from_cache_eq. generalize (locate self key). intros q Hp.
  destruct (disk w !! q) as [[c|]|]; try reflexivity.
  simpl. by rewrite lookup_delete_ne.
Qed.

Lemma put_in_cache_heap self key v w :
  heap (snd (put_in_cache self key v w)) = heap w /\
  calls (snd (put_in_cache self key v w)) = calls w.
Proof.
  rewrite put_in_cache_eq. generalize (locate self key). intros q.
  destruct (disk w !! q) as [[c|]|]; try done;
    (destruct (os.has_parent (disk w) q);
     [|destruct (disk w !! os.dirname q) as [[c'|]|]; done]);
    destruct (pickle_dumps v); done.
Qed.

(** The two readers look at nothing but the file of their key. *)
Lemma readers_same_file self key w w' :
  disk w' !! locate self key = disk w !! locate self key ->
  fst (has_in_cache self key w') = fst (has_in_cache self key w) /\
  fst (retrieve_from_cache self key w') = fst (retrieve_from_cache self key w).
Proof.
  rewrite !has_in_cache_eq, !retrieve_from_cache_eq.
  generalize (locate self key). intros q E. rewrite E.
  split; [reflexivity|].
  destruct (disk w !! q) as [[data|]|]; reflexivity.
Qed.

End MethodFacts.

(** ** The claims about the cache *)
Section Claims.
Context {U V A : Type} `{Pickle V}.
Implicit Types (self : CacheManager) (key : string) (w : world U) (v : V).

(** [cachify], case by case on what is at the path of the key. *)
Lemma cachify_eq self key (func : callable) (args : A) w :
  cachify self key func args w =
  match disk w !! locate self key with
  | Some (File _) => retrieve_from_cache self key w
  | _ =>
      match func args (heap w) with
      | (Return v, u) =>
          match put_in_cache self key v (World (disk w) u (S (calls w))) with
          | (Return _, w2) => (Return v, w2)
          | (Raise e, w2) => (Raise e, w2)
          end
      | (Raise e, u) => (Raise e, World (disk w) u (S (calls w)))
      end
  end.
Proof.
  unfold cachify, bind at 1. rewrite has_in_cache_eq.
  generalize (locate self key). intros p.
  destruct (disk w !! p) as [[c|]|]; try reflexivity;
    unfold bind, call;
    destruct (func args (heap w)) as [[v|e] u]; try reflexivity;
    destruct (put_in_cache self key v _) as [[[]|e] w2]; reflexivity.
Qed.

Lemma has_in_cache_true self key w :
  has_in_cache self key w = (Return true, w) ->
  exists data, disk w !! locate self key = Some (File data).
Proof.
  rewrite has_in_cache_eq. generalize (locate self key). intros p.
  destruct (disk w !! p) as [[c|]|]; intros [=]. eauto.
Qed.

Lemma has_in_cache_false self key w :
  has_in_cache self key w = (Return false, w) ->
  disk w !! locate self key = None \/ disk w !! locate self key = Some Dir.
Proof.
  rewrite has_in_cache_eq. generalize (locate self key). intros p.
  destruct (disk w !! p) as [[c|]|]; intros [=]; auto.
Qed.

(** A store that returned is followed by a load of the value stored. *)
Lemma retrieve_after_put `{!PickleRoundTrip V} self key v w w' :
  put_in_cache self key v w = (Return tt, w') ->
  retrieve_from_cache self key w' = (Return v, w').
Proof.
  intros Hput. apply put_in_cache_inv in Hput as (data & Hdump & ->).
  rewrite retrieve_from_cache_eq. unfold set_disk. cbn [disk].
  rewrite lookup_insert_eq.
  by rewrite (proj1 (loads_result_some data v) (pickle_round_trip v data Hdump)).
Qed.

Lemma has_after_put self key v w w' :
  put_in_cache self key v w = (Return tt, w') ->
  has_in_cache self key w' = (Return true, w').
Proof.
  intros Hput. apply put_in_cache_inv in Hput as (data & Hdump & ->).
  rewrite has_in_cache_eq. unfold set_disk. cbn [disk].
  by rewrite lookup_insert_eq.
Qed.

(** A hit: the outcome is the one of [retrieve_from_cache], whatever the
    function and its arguments, and the state stays as it was. *)
Lemma cachify_hit self key (func : callable) (args : A) w :
  has_in_cache self key w = (Return true, w) ->
  cachify self key func args w = retrieve_from_cache self key w /\
  snd (cachify self key func args w) = w.
Proof.
  intros Hhit. destruct (has_in_cache_true _ _ _ Hhit) as [data Hd].
  rewrite cachify_eq, Hd. split; [reflexivity|].
  rewrite retrieve_from_cache_eq, Hd. reflexivity.
Qed.

(** A miss on which the function and the store both return. *)
Lemma cachify_miss self key (func : callable) (args : A) w v u w2 :
  has_in_cache self key w = (Return false, w) ->
  func args (heap w) = (Return v, u) ->
  put_in_cache self key v (World (disk w) u (S (calls w))) = (Return tt, w2) ->
  cachify self key func args w = (Return v, w2) /\
  heap w2 = u /\ calls w2 = S (calls w).
Proof.
  intros Hmiss Hrun Hput. split.
  - rewrite cachify_eq, Hrun, Hput.
    destruct (has_in_cache_false _ _ _ Hmiss) as [-> | ->]; reflexivity.
  - pose proof (put_in_cache_heap self key v (World (disk w) u (S (calls w)))) as [Hh Hc].
    rewrite Hput in Hh, Hc. exact (conj Hh Hc).
Qed.

(** Once a store has returned, [cachify] on that key returns the value
    stored, whatever the function and its arguments, and calls nothing. *)
Lemma cachify_after_put `{!PickleRoundTrip V}
    self key (func : callable) (args : A) v w w' :
  put_in_cache self key v w = (Return tt, w') ->
  cachify self key func args w' = (Return v, w').
Proof.
  intros Hput.
  destruct (cachify_hit self key func args w' (has_after_put _ _ _ _ _ Hput)) as [-> _].
  exact (retrieve_after_put _ _ _ _ _ Hput).
Qed.

(** C1. [cachify] on a key whose entry exists returns what
    [retrieve_from_cache] returns and leaves the state as it was, so the
    function is not called.  On a key without entry it calls the function
    once; when that returns [v] and the store of [v] returns, [cachify]
    returns [v] in the state the store left, with one call more counted and
    [v] stored under the key.  A second call with the same key then returns
    [v] again and counts no further call. *)
Theorem cachify_get_or_compute `{!PickleRoundTrip V}
    self key (compute : callable) (args : A) w :
  (has_in_cache self key w = (Return true, w) ->
     cachify self key compute args w = retrieve_from_cache self key w /\
     snd (cachify self key compute args w) = w) /\
  (has_in_cache self key w = (Return false, w) ->
   forall v u w2,
     compute args (heap w) = (Return v, u) ->
     put_in_cache self key v (World (disk w) u (S (calls w))) = (Return tt, w2) ->
     cachify self key compute args w = (Return v, w2) /\
     heap w2 = u /\ calls w2 = S (calls w) /\
     retrieve_from_cache self key w2 = (Return v, w2) /\
     cachify self key compute args w2 = (Return v, w2)).
Proof.
  split.
  - apply cachify_hit.
  - intros Hmiss v u w2 Hrun Hput.
    destruct (cachify_miss _ _ _ _ _ _ _ _ Hmiss Hrun Hput) as (H1 & Hh & Hc).
    repeat split; try assumption.
    + exact (retrieve_after_put _ _ _ _ _ Hput).
    + exact (cachify_after_put _ _ _ _ _ _ _ Hput).
Qed.

(** C2. The wrapper that [memoize] makes of a function under a key, called
    on a state without entry for the key with arguments on which the
    function returns [v] (and the store of [v] returns), returns [v]; called
    again with any arguments at all, it returns [v] again, and the function
    has been called once in all.  With an entry in place the wrapper gives
    the same outcome whatever its arguments. *)
Theorem memoize_key_identity `{!PickleRoundTrip V}
    self key (func : callable) (args1 args2 : A) w :
  (has_in_cache self key w = (Return false, w) ->
   forall v u w2,
     func args1 (heap w) = (Return v, u) ->
     put_in_cache self key v (World (disk w) u (S (calls w))) = (Return tt, w2) ->
     memoize self key func args1 w = (Return v, w2) /\
     memoize self key func args2 w2 = (Return v, w2) /\
     calls (snd (memoize self key func args2 w2)) = S (calls w)) /\
  (has_in_cache self key w = (Return true, w) ->
     memoize self key func args1 w = memoize self key func args2 w).
Proof.
  unfold memoize. split.
  - intros Hmiss v u w2 Hrun Hput.
    destruct (cachify_miss _ _ _ _ _ _ _ _ Hmiss Hrun Hput) as (H1 & _ & Hc).
    pose proof (cachify_after_put self key func args2 _ _ _ Hput) as H2.
    rewrite H2. repeat split; assumption.
  - intros Hhit.
    destruct (cachify_hit self key func args1 w Hhit) as [-> _].
    destruct (cachify_hit self key func args2 w Hhit) as [-> _]. reflexivity.
Qed.

(** [cachify] too touches the file of its key only. *)
Lemma cachify_frame self key (func : callable) (args : A) w (p : string) :
  p <> locate self key ->
  disk (snd (cachify self key func args w)) !! p = disk w !! p.
Proof.
  intros Hp. rewrite cachify_eq.
  assert (Hmiss :
    disk (snd match func args (heap w) with
              | (Return v, u) =>
                  match put_in_cache self key v (World (disk w) u (S (calls w))) with
                  | (Return _, w2) => (Return v, w2)
                  | (Raise e, w2) => (Raise e, w2)
                  end
              | (Raise e, u) => (Raise e, World (disk w) u (S (calls w)))
              end) !! p = disk w !! p).
  { destruct (func args (heap w)) as [[v|e] u]; [|reflexivity].
    pose proof (put_in_cache_frame self key v (World (disk w) u (S (calls w))) p Hp) as Hf.
    destruct (put_in_cache self key v _) as [[[]|e] w2]; exact Hf. }
  destruct (disk w !! locate self key) as [[data|]|] eqn:Hd; try exact Hmiss.
  rewrite retrieve_from_cache_eq, Hd. reflexivity.
Qed.

(** No request makes a file at the path of [key], unless it stores under
    the digest of [key]. *)
Lemma serve_keeps_absent self key (r : @request U V A) w :
  ~ stores_under key r ->
  (forall data, disk w !! locate self key <> Some (File data)) ->
  forall data, disk (serve self w r) !! locate self key <> Some (File data).
Proof.
  intros Hr Habs.
  assert (Hother : forall k, str_to_hash k <> str_to_hash key ->
                             locate self key <> locate self k).
  { intros k Hk E. apply Hk. symmetry. exact (locate_digest_inj self key k E). }
  destruct r as [k|k|k|k obj|k func args]; cbn [serve stores_under] in *.
  - exact Habs.
  - rewrite retrieve_from_cache_eq.
    destruct (disk w !! locate self k) as [[d|]|]; exact Habs.
  - rewrite clear_from_cache_eq.
    destruct (disk w !! locate self k) as [[d|]|]; try exact Habs.
    unfold set_disk. cbn [snd disk]. intros data.
    destruct (decide (locate self k = locate self key)) as [-> | Hne].
    + by rewrite lookup_delete_eq.
    + rewrite lookup_delete_ne by exact Hne. apply Habs.
  - intros data. rewrite (put_in_cache_frame self k obj w _ (Hother k Hr)). apply Habs.
  - intros data. rewrite (cachify_frame self k func args w _ (Hother k Hr)). apply Habs.
Qed.

(** Before any store under its digest a key has no entry. *)
Lemma absent_before_store self key (rs : list (@request U V A)) (u : U) (n : nat) :
  Forall (fun r => ~ stores_under key r) rs ->
  has_in_cache self key
    (serve_all self rs (World {[ cache_folder_path self := Dir ]} u n))
  = (Return false,
     serve_all self rs (World {[ cache_folder_path self := Dir ]} u n)).
Proof.
  intros Hrs.
  assert (Hstart : forall data,
            disk (World (U:=U) {[ cache_folder_path self := Dir ]} u n)
              !! locate self key <> Some (File data)).
  { intros data. cbn [disk]. generalize (locate self key). intros p.
    destruct (decide (cache_folder_path self = p)) as [<- | Hne].
    - by rewrite lookup_singleton_eq.
    - by rewrite lookup_singleton_ne. }
  revert Hstart. generalize (World (U:=U) {[ cache_folder_path self := Dir ]} u n).
  unfold serve_all.
  induction Hrs as [|r rs Hr _ IH]; intros w Habs; cbn [fold_left].
  - rewrite has_in_cache_eq. generalize (Habs). generalize (locate self key).
    intros p Hp. destruct (disk w !! p) as [[d|]|]; try reflexivity.
    destruct (Hp d eq_refl).
  - apply IH. exact (serve_keeps_absent self key r w Hr Habs).
Qed.

(** C3. When the key has no entry and the function raises, [cachify]
    raises the same exception, the disk is as it was, and the key still has
    no entry. *)
Theorem cachify_failure_not_cached
    self key (compute : callable) (args : A) w (e : exn) (u : U) :
  has_in_cache self key w = (Return false, w) ->
  compute args (heap w) = (Raise e, u) ->
  fst (cachify self key compute args w) = Raise e /\
  disk (snd (cachify self key compute args w)) = disk w /\
  has_in_cache self key (snd (cachify self key compute args w))
  = (Return false, snd (cachify self key compute args w)).
Proof.
  intros Hmiss Hrun.
  assert (Hout : cachify self key compute args w
                 = (Raise e, World (disk w) u (S (calls w)))).
  { rewrite cachify_eq, Hrun.
    destruct (has_in_cache_false _ _ _ Hmiss) as [-> | ->]; reflexivity. }
  rewrite Hout. cbn [fst snd disk]. repeat split.
  rewrite has_in_cache_eq. cbn [disk].
  destruct (has_in_cache_false _ _ _ Hmiss) as [-> | ->]; reflexivity.
Qed.

(** C4. After a store of [v] under a key has returned, whatever was at the
    path before, a load of the key returns [v] and changes nothing; so after
    two stores the load returns the value of the second.  And the store of
    a value that can be pickled does return, with or without an entry in
    place, when the folder of the manager is a directory (written without
    separator at its end) and no directory sits at the path of the key. *)
Theorem store_then_load `{!PickleRoundTrip V} self key v w :
  (forall w',
     put_in_cache self key v w = (Return tt, w') ->
     retrieve_from_cache self key w' = (Return v, w') /\
     (forall v2 w'',
        put_in_cache self key v2 w' = (Return tt, w'') ->
        retrieve_from_cache self key w'' = (Return v2, w''))) /\
  (forall data,
     pickle_dumps v = Dumped data ->
     disk w !! cache_folder_path self = Some Dir ->
     os.endswith_sep (cache_folder_path self) = false ->
     disk w !! locate self key <> Some Dir ->
     exists w',
       put_in_cache self key v w = (Return tt, w') /\
       retrieve_from_cache self key w' = (Return v, w')).
Proof.
  split.
  - intros w' Hput. split.
    + exact (retrieve_after_put _ _ _ _ _ Hput).
    + intros v2 w'' Hput2. exact (retrieve_after_put _ _ _ _ _ Hput2).
  - intros data Hv Hdir Hend Hnd.
    pose proof (put_in_cache_in_folder self key v w data Hdir Hend Hnd Hv) as Hput.
    eexists. split; [exact Hput|].
    exact (retrieve_after_put _ _ _ _ _ Hput).
Qed.

(** C5. The state of a key is absent or present.  Starting in a folder
    that holds nothing, the key is absent after any sequence of calls with
    no store under its digest among them.  After a store that returned the
    key is present, from either state; and the store of a value that can be
    pickled does return, from the absent state as from the present one,
    when the folder of the manager is a directory (written without
    separator at its end) and no directory sits at the path of the key.  A
    remove on a present key returns and leaves it absent. *)
Theorem entry_state_machine self key v w (rs : list (@request U V A)) :
  (Forall (fun r => ~ stores_under key r) rs ->
   forall (u : U) (n : nat),
     has_in_cache self key
       (serve_all self rs (World {[ cache_folder_path self := Dir ]} u n))
     = (Return false,
        serve_all self rs (World {[ cache_folder_path self := Dir ]} u n))) /\
  (forall w',
     put_in_cache self key v w = (Return tt, w') ->
     has_in_cache self key w' = (Return true, w')) /\
  (forall data,
     pickle_dumps v = Dumped data ->
     disk w !! cache_folder_path self = Some Dir ->
     os.endswith_sep (cache_folder_path self) = false ->
     disk w !! locate self key <> Some Dir ->
     exists w',
       put_in_cache self key v w = (Return tt, w') /\
       has_in_cache self key w' = (Return true, w')) /\
  (has_in_cache self key w = (Return true, w) ->
   exists w',
     clear_from_cache self key w = (Return tt, w') /\
     has_in_cache self key w' = (Return false, w')).
Proof.
  split; [|split; [|split]].
  - intros Hrs u n. exact (absent_before_store self key rs u n Hrs).
  - intros w'. apply has_after_put.
  - intros data Hv Hdir Hend Hnd.
    pose proof (put_in_cache_in_folder self key v w data Hdir Hend Hnd Hv) as Hput.
    eexists. split; [exact Hput|]. exact (has_after_put _ _ _ _ _ Hput).
  - intros Hhit. destruct (has_in_cache_true _ _ _ Hhit) as [data Hd].
    eexists. rewrite clear_from_cache_eq, Hd. split; [reflexivity|].
    rewrite has_in_cache_eq. unfold set_disk. cbn [disk].
    by rewrite lookup_delete_eq.
Qed.

(** C6. When nothing is at the path of a key, a load raises
    FileNotFoundError and so does a remove, and the state is as it was. *)
Theorem missing_entry_not_found self key w :
  disk w !! locate self key = None ->
  retrieve_from_cache self key w = (Raise FileNotFoundError, w) /\
  clear_from_cache self key w = (Raise FileNotFoundError, w).
Proof.
  intros Hnone. rewrite retrieve_from_cache_eq, clear_from_cache_eq, Hnone.
  split; reflexivity.
Qed.

(** With a directory at the path of a key the key has no entry either, and
    a load or a remove raises IsADirectoryError. *)
Remark directory_in_the_way self key w :
  disk w !! locate self key = Some Dir ->
  has_in_cache self key w = (Return false, w) /\
  retrieve_from_cache self key w = (Raise IsADirectoryError, w) /\
  clear_from_cache self key w = (Raise IsADirectoryError, w).
Proof.
  intros Hdir.
  rewrite has_in_cache_eq, retrieve_from_cache_eq, clear_from_cache_eq, Hdir.
  repeat split; reflexivity.
Qed.

(** C7. When the file of a key holds bytes that [pickle.load] cannot read
    (cut short, malformed, or of another format), a load raises the
    exception that pickle raises for those bytes: it returns no value and
    leaves the file as it is. *)
Theorem corrupt_entry_raises self key w (data : list byte) (e : exn) :
  disk w !! locate self key = Some (File data) ->
  pickle_loads_result data = Raise e ->
  pickle_loads data = None /\
  retrieve_from_cache self key w = (Raise e, w).
Proof.
  intros Hfile Hbad. split.
  - apply loads_result_none. eauto.
  - rewrite retrieve_from_cache_eq, Hfile, Hbad. reflexivity.
Qed.

(** C8. On a path where the disk has no directory the constructor raises
    AssertionError and gives no manager; on a directory it returns the
    manager of that folder.  The state is the same after as before. *)
Theorem init_checks_folder (cache_folder_path : string) w :
  (disk w !! cache_folder_path <> Some Dir ->
     __init__ cache_folder_path w = (Raise AssertionError, w)) /\
  (disk w !! cache_folder_path = Some Dir ->
     __init__ cache_folder_path w
     = (Return {| cache_folder_path := cache_folder_path |}, w)).
Proof.
  unfold __init__, bind, os.isdir. split.
  - intros Hno. destruct (disk w !! cache_folder_path) as [[c|]|];
      try reflexivity. congruence.
  - intros ->. reflexivity.
Qed.

(** C10. A store or a remove under [k1] leaves the entry of every key
    [k2] with another digest alone: its file, and so what [has_in_cache]
    and [retrieve_from_cache] give for it, are the same after as before. *)
Theorem other_entries_untouched self (k1 k2 : string) v w :
  str_to_hash k1 <> str_to_hash k2 ->
  let after_put := snd (put_in_cache self k1 v w) in
  let after_clear := snd (clear_from_cache self k1 w) in
  (disk after_put !! locate self k2 = disk w !! locate self k2 /\
   fst (has_in_cache self k2 after_put) = fst (has_in_cache self k2 w) /\
   fst (retrieve_from_cache self k2 after_put) = fst (retrieve_from_cache self k2 w)) /\
  (disk after_clear !! locate self k2 = disk w !! locate self k2 /\
   fst (has_in_cache self k2 after_clear) = fst (has_in_cache self k2 w) /\
   fst (retrieve_from_cache self k2 after_clear) = fst (retrieve_from_cache self k2 w)).
Proof.
  intros Hdig after_put after_clear.
  assert (Hpath : locate self k2 <> locate self k1).
  { intros E. apply Hdig. symmetry. exact (locate_digest_inj self k2 k1 E). }
  pose proof (put_in_cache_frame self k1 v w _ Hpath) as Hput.
  pose proof (clear_from_cache_frame self k1 w _ Hpath) as Hclear.
  split; (split; [assumption|]); apply readers_same_file; assumption.
Qed.

End Claims.

(** C9. [str_to_hash] is a function of the key alone: the SHA-256 digest of
    its UTF-8 bytes in hexadecimal.  The value has 64 hexadecimal
    characters and stands for the 32 bytes of the digest one for one, so two
    keys have the same value exactly when they have the same digest; the
    message is padded to whole blocks as SHA-256 has it; for "test" the
    value is 9f86d081...0a08, and the other keys of [str_hash_mapping] and
    the messages of the standard give the digests known for them.  Every
    method works on the path made of the folder joined with that value and
    the suffix ".pickle". *)
Theorem str_to_hash_digest :
  (forall key : string,
     str_to_hash key
     = SHA256.hex (SHA256.digest_of (SHA256.sha256 (list_byte_of_string key))) /\
     String.length (str_to_hash key) = 64%nat /\
     forallb is_hex_digit (list_ascii_of_string (str_to_hash key)) = true) /\
  (forall k1 k2 : string,
     str_to_hash k1 = str_to_hash k2 <->
     SHA256.digest_of (SHA256.sha256 (list_byte_of_string k1))
     = SHA256.digest_of (SHA256.sha256 (list_byte_of_string k2))) /\
  (forall msg : list Z,
     (Z.of_nat (length (SHA256.pad msg)) mod 64 = 0)%Z /\
     (length msg + 9 <= length (SHA256.pad msg) <= length msg + 72)%nat) /\
  (str_to_hash "test"
   = "9f86d081884c7d659a2feaa0c55ad015a3bf4f1b2b0b822cd15d6c15b0f00a08" /\
   str_to_hash "cache_manager"
   = "34d7518f35fb588fcc7768ea21389b823f33e8eb8742a34172fcfff5ec388409" /\
   str_to_hash "abc"
   = "ba7816bf8f01cfea414140de5dae2223b00361a396177a9cb410ff61f20015ad" /\
   str_to_hash ""
   = "e3b0c44298fc1c149afbf4c8996fb92427ae41e4649b934ca495991b7852b855" /\
   str_to_hash "abcdbcdecdefdefgefghfghighijhijkijkljklmklmnlmnomnopnopq"
   = "248d6a61d20638b8e5c026930c3e6039a33ce45964ff2167f6ecedd419db06c1" /\
   str_to_hash "abcdefghbcdefghicdefghijdefghijkefghijklfghijklmghijklmnhijklmnoijklmnopjklmnopqklmnopqrlmnopqrsmnopqrstnopqrstu"
   = "cf5b16a778af8380036ce59e7b0492370b249b11e8f07a51afac45037afee9d1") /\
  (forall (self : CacheManager) (key : string),
     str_to_filename self key = str_to_hash key +:+ ".pickle" /\
     locate self key = os.join (cache_folder_path self) (str_to_filename self key)) /\
  (forall (U V : Type) (P : Pickle V) (self : CacheManager) (key : string) (v : V),
     has_in_cache (U:=U) self key = os.isfile (locate self key) /\
     retrieve_from_cache (U:=U) (V:=V) self key
     = bind (os.open_rb (locate self key)) pickle.load /\
     clear_from_cache (U:=U) self key = os.remove (locate self key) /\
     put_in_cache (U:=U) self key v
     = bind (os.open_wb (locate self key)) (pickle.dump v)).
Proof.
  split; [|split; [|split; [|split; [|split]]]].
  - intros key. split; [reflexivity|]. split; [apply str_to_hash_length|].
    unfold str_to_hash, SHA256.hexdigest. apply hex_all_hex.
  - exact str_to_hash_eq_digest.
  - exact pad_length.
  - repeat split; vm_compute; reflexivity.
  - intros self key. split; reflexivity.
  - intros U V P self key v. repeat split; reflexivity.
Qed.

(** ** The checks of the module pass *)
Module TestRuns.
Import Pickle3 Tests.

Example test_str_to_hash_passes : test_str_to_hash = true.
Proof. vm_compute. reflexivity. Qed.

Example test_str_to_filename_passes : test_str_to_filename = true.
Proof. vm_compute. reflexivity. Qed.

Example test_has_in_cache_passes :
  forallb (fun kv => passes (has_in_cache_turn (fst kv) start)) str_hash_mapping = true.
Proof. vm_compute. reflexivity. Qed.

Example test_retrieve_from_cache_passes :
  forallb (fun kv => passes (retrieve_turn (fst kv) start)) str_hash_mapping = true.
Proof. vm_compute. reflexivity. Qed.

Example test_cachify_passes :
  test_cachify start
  = (Return (PyStr "Hello World!", PyStr "Hello World!"),
     World {[ some_folder_path := Dir ]} 1 1).
Proof. vm_compute. reflexivity. Qed.

Example test_memoize_passes :
  test_memoize start
  = (Return (PyStr "Hello World!", PyStr "Hello World!"),
     World {[ some_folder_path := Dir ]} 1 1).
Proof. vm_compute. reflexivity. Qed.

(** A value that cannot be pickled leaves an empty file behind, which is
    then taken for an entry; a load of it runs out of input. *)
Example lambda_leaves_empty_file :
  let w := snd (put_in_cache cache_manager "f" PyLambda start) in
  fst (put_in_cache cache_manager "f" PyLambda start) = Raise PicklingError /\
  disk w !! locate cache_manager "f" = Some (File []) /\
  fst (has_in_cache cache_manager "f" w) = Return true /\
  fst (retrieve_from_cache (V:=pyobj) cache_manager "f" w) = Raise EOFError.
Proof. vm_compute. repeat split; reflexivity. Qed.

(** What the unpickler makes of a pickle cut at each place, of bytes after
    STOP, of another protocol number, of a stream without BINPUT, and of a
    payload that is no UTF-8. *)
Example loads_cases :
  loads [] = Raise EOFError /\
  loads [x80] = Raise UnpicklingError /\
  loads [x80; x03] = Raise EOFError /\
  loads [x80; x03; x58; x01; x00] = Raise UnpicklingError /\
  loads [x80; x03; x58; x0c; x00; x00; x00; x48; x65] = Raise UnpicklingError /\
  loads [x80; x03; x58; x01; x00; x00; x00; x61] = Raise EOFError /\
  loads [x80; x03; x58; x01; x00; x00; x00; x61; x71] = Raise UnpicklingError /\
  loads [x80; x03; x58; x01; x00; x00; x00; x61; x71; x00] = Raise EOFError /\
  loads [x80; x03; x58; x01; x00; x00; x00; x61; x71; x00; x2e]
  = Return (PyStr "a") /\
  loads [x80; x03; x58; x01; x00; x00; x00; x61; x71; x00; x2e; x00; x01]
  = Return (PyStr "a") /\
  loads [x80; x02; x58; x01; x00; x00; x00; x61; x71; x00; x2e]
  = Return (PyStr "a") /\
  loads [x80; x03; x58; x01; x00; x00; x00; x61; x2e] = Return (PyStr "a") /\
  loads [x80; x05; x58; x01; x00; x00; x00; x61; x2e] = Raise ValueError /\
  loads [x80; x03; x58; x01; x00; x00; x00; xff; x2e] = Raise UnicodeDecodeError /\
  loads [x80; x03; x2e] = Raise UnpicklingError.
Proof. vm_compute. repeat split; reflexivity. Qed.

End TestRuns.

(** ** The claims on the module's own values *)
Import Pickle3 Tests.

Lemma cachify_get_or_compute_witness :
  (cachify cache_manager "expensive_name" expensive_function hello stored
   = retrieve_from_cache cache_manager "expensive_name" stored /\
   snd (cachify cache_manager "expensive_name" expensive_function hello stored)
   = stored) /\
  (cachify cache_manager "expensive_name" expensive_function hello start
   = (Return (PyStr "Hello World!"), stored) /\
   heap stored = 1 /\ calls stored = S (calls start) /\
   retrieve_from_cache cache_manager "expensive_name" stored
   = (Return (PyStr "Hello World!"), stored) /\
   cachify cache_manager "expensive_name" expensive_function hello stored
   = (Return (PyStr "Hello World!"), stored)).
Proof.
  assert (Hhit : has_in_cache cache_manager "expensive_name" stored
                 = (Return true, stored)) by (vm_compute; reflexivity).
  assert (Hmiss : has_in_cache cache_manager "expensive_name" start
                  = (Return false, start)) by (vm_compute; reflexivity).
  assert (Hrun : expensive_function hello (heap start)
                 = (Return (PyStr "Hello World!"), 1)) by (vm_compute; reflexivity).
  assert (Hput : put_in_cache cache_manager "expensive_name" (PyStr "Hello World!")
                   (World (disk start) 1 (S (calls start)))
                 = (Return tt, stored)) by (vm_compute; reflexivity).
  split.
  - exact (proj1 (cachify_get_or_compute cache_manager "expensive_name"
                    expensive_function hello stored) Hhit).
  - exact (proj2 (cachify_get_or_compute cache_manager "expensive_name"
                    expensive_function hello start) Hmiss _ _ _ Hrun Hput).
Defined.

Lemma memoize_key_identity_witness :
  (memoize cache_manager "expensive_name" expensive_function hello start
   = (Return (PyStr "Hello World!"), stored) /\
   memoize cache_manager "expensive_name" expensive_function other_args stored
   = (Return (PyStr "Hello World!"), stored) /\
   calls (snd (memoize cache_manager "expensive_name" expensive_function
                 other_args stored))
   = S (calls start)) /\
  memoize cache_manager "expensive_name" expensive_function hello stored
  = memoize cache_manager "expensive_name" expensive_function other_args stored.
Proof.
  assert (Hhit : has_in_cache cache_manager "expensive_name" stored
                 = (Return true, stored)) by (vm_compute; reflexivity).
  assert (Hmiss : has_in_cache cache_manager "expensive_name" start
                  = (Return false, start)) by (vm_compute; reflexivity).
  assert (Hrun : expensive_function hello (heap start)
                 = (Return (PyStr "Hello World!"), 1)) by (vm_compute; reflexivity).
  assert (Hput : put_in_cache cache_manager "expensive_name" (PyStr "Hello World!")
                   (World (disk start) 1 (S (calls start)))
                 = (Return tt, stored)) by (vm_compute; reflexivity).
  split.
  - exact (proj1 (memoize_key_identity cache_manager "expensive_name"
                    expensive_function hello other_args start)
             Hmiss _ _ _ Hrun Hput).
  - exact (proj2 (memoize_key_identity cache_manager "expensive_name"
                    expensive_function hello other_args stored) Hhit).
Defined.

Lemma cachify_failure_not_cached_witness :
  fst (cachify cache_manager "expensive_name" failing_function hello start)
  = Raise (Exception "boom") /\
  disk (snd (cachify cache_manager "expensive_name" failing_function hello start))
  = disk start /\
  has_in_cache cache_manager "expensive_name"
    (snd (cachify cache_manager "expensive_name" failing_function hello start))
  = (Return false,
     snd (cachify cache_manager "expensive_name" failing_function hello start)).
Proof.
  assert (Hmiss : has_in_cache cache_manager "expensive_name" start
                  = (Return false, start)) by (vm_compute; reflexivity).
  assert (Hrun : failing_function hello (heap start)
                 = (Raise (Exception "boom"), 1)) by (vm_compute; reflexivity).
  exact (cachify_failure_not_cached cache_manager "expensive_name"
           failing_function hello start _ _ Hmiss Hrun).
Defined.

Lemma store_then_load_witness :
  (retrieve_from_cache cache_manager "expensive_name" stored
   = (Return (PyStr "Hello World!"), stored) /\
   (forall v2 w'',
      put_in_cache cache_manager "expensive_name" v2 stored = (Return tt, w'') ->
      retrieve_from_cache cache_manager "expensive_name" w'' = (Return v2, w''))) /\
  (exists w',
     put_in_cache cache_manager "expensive_name" (PyStr "a") stored = (Return tt, w') /\
     retrieve_from_cache cache_manager "expensive_name" w' = (Return (PyStr "a"), w')).
Proof.
  assert (Hput : put_in_cache cache_manager "expensive_name" (PyStr "Hello World!")
                   (World (disk start) 1 1)
                 = (Return tt, stored)) by (vm_compute; reflexivity).
  assert (Hv : pickle_dumps (PyStr "a")
               = Dumped [x80; x03; x58; x01; x00; x00; x00; x61; x71; x00; x2e])
    by (vm_compute; reflexivity).
  assert (Hdir : disk stored !! cache_folder_path cache_manager = Some Dir)
    by (vm_compute; reflexivity).
  assert (Hend : os.endswith_sep (cache_folder_path cache_manager) = false)
    by (vm_compute; reflexivity).
  assert (Hnd : disk stored !! locate cache_manager "expensive_name" <> Some Dir)
    by (vm_compute; discriminate).
  split.
  - exact (proj1 (store_then_load cache_manager "expensive_name"
                    (PyStr "Hello World!") (World (disk start) 1 1)) stored Hput).
  - exact (proj2 (store_then_load cache_manager "expensive_name"
                    (PyStr "a") stored) _ Hv Hdir Hend Hnd).
Defined.

Lemma entry_state_machine_witness :
  has_in_cache cache_manager "expensive_name"
    (serve_all cache_manager other_requests
       (World {[ cache_folder_path cache_manager := Dir ]} 0 0))
  = (Return false,
     serve_all cache_manager other_requests
       (World {[ cache_folder_path cache_manager := Dir ]} 0 0)) /\
  has_in_cache cache_manager "expensive_name" stored = (Return true, stored) /\
  (exists w',
     put_in_cache cache_manager "expensive_name" (PyStr "Hello World!") start
     = (Return tt, w') /\
     has_in_cache cache_manager "expensive_name" w' = (Return true, w')) /\
  (exists w',
     put_in_cache cache_manager "expensive_name" (PyStr "Hello World!") stored
     = (Return tt, w') /\
     has_in_cache cache_manager "expensive_name" w' = (Return true, w')) /\
  exists w',
    clear_from_cache cache_manager "expensive_name" stored = (Return tt, w') /\
    has_in_cache cache_manager "expensive_name" w' = (Return false, w').
Proof.
  assert (Hrs : Forall (fun r => ~ stores_under "expensive_name" r) other_requests).
  { unfold other_requests.
    repeat (apply List.Forall_cons;
            [cbn [stores_under]; first [vm_compute; discriminate | intros []]|]).
    apply List.Forall_nil. }
  assert (Hput : put_in_cache cache_manager "expensive_name" (PyStr "Hello World!")
                   (World (disk start) 1 1)
                 = (Return tt, stored)) by (vm_compute; reflexivity).
  assert (Hhit : has_in_cache cache_manager "expensive_name" stored
                 = (Return true, stored)) by (vm_compute; reflexivity).
  assert (Hv : pickle_dumps (PyStr "Hello World!")
               = Dumped [x80; x03; x58; x0c; x00; x00; x00; x48; x65; x6c; x6c; x6f;
                         x20; x57; x6f; x72; x6c; x64; x21; x71; x00; x2e])
    by (vm_compute; reflexivity).
  assert (Hdir0 : disk start !! cache_folder_path cache_manager = Some Dir)
    by (vm_compute; reflexivity).
  assert (Hdir1 : disk stored !! cache_folder_path cache_manager = Some Dir)
    by (vm_compute; reflexivity).
  assert (Hend : os.endswith_sep (cache_folder_path cache_manager) = false)
    by (vm_compute; reflexivity).
  assert (Hnd0 : disk start !! locate cache_manager "expensive_name" <> Some Dir)
    by (vm_compute; discriminate).
  assert (Hnd1 : disk stored !! locate cache_manager "expensive_name" <> Some Dir)
    by (vm_compute; discriminate).
  split; [|split; [|split; [|split]]].
  - exact (proj1 (entry_state_machine cache_manager "expensive_name"
                    (PyStr "Hello World!") stored other_requests) Hrs 0 0).
  - exact (proj1 (proj2 (entry_state_machine cache_manager "expensive_name"
                           (PyStr "Hello World!") (World (disk start) 1 1)
                           other_requests))
             stored Hput).
  - exact (proj1 (proj2 (proj2 (entry_state_machine cache_manager "expensive_name"
                                  (PyStr "Hello World!") start other_requests)))
             _ Hv Hdir0 Hend Hnd0).
  - exact (proj1 (proj2 (proj2 (entry_state_machine cache_manager "expensive_name"
                                  (PyStr "Hello World!") stored other_requests)))
             _ Hv Hdir1 Hend Hnd1).
  - exact (proj2 (proj2 (proj2 (entry_state_machine cache_manager "expensive_name"
                                  (PyStr "Hello World!") stored other_requests)))
             Hhit).
Defined.

Lemma missing_entry_not_found_witness :
  retrieve_from_cache (V:=pyobj) cache_manager "expensive_name" start
  = (Raise FileNotFoundError, start) /\
  clear_from_cache cache_manager "expensive_name" start
  = (Raise FileNotFoundError, start).
Proof.
  assert (Hnone : disk start !! locate cache_manager "expensive_name" = None)
    by (vm_compute; reflexivity).
  exact (missing_entry_not_found cache_manager "expensive_name" start Hnone).
Defined.

Lemma corrupt_entry_raises_witness :
  (pickle_loads (V:=pyobj) [x80; x03; x58; x0c; x00; x00; x00; x48; x65] = None /\
   retrieve_from_cache (V:=pyobj) cache_manager "expensive_name" truncated
   = (Raise UnpicklingError, truncated)) /\
  (pickle_loads (V:=pyobj) [] = None /\
   retrieve_from_cache (V:=pyobj) cache_manager "expensive_name" emptied
   = (Raise EOFError, emptied)).
Proof.
  assert (Hfile : disk truncated !! locate cache_manager "expensive_name"
                  = Some (File [x80; x03; x58; x0c; x00; x00; x00; x48; x65]))
    by (vm_compute; reflexivity).
  assert (Hbad : pickle_loads_result (V:=pyobj)
                   [x80; x03; x58; x0c; x00; x00; x00; x48; x65]
                 = Raise UnpicklingError)
    by (vm_compute; reflexivity).
  assert (Hfile0 : disk emptied !! locate cache_manager "expensive_name"
                   = Some (File [])) by (vm_compute; reflexivity).
  assert (Hbad0 : pickle_loads_result (V:=pyobj) [] = Raise EOFError)
    by (vm_compute; reflexivity).
  split.
  - exact (corrupt_entry_raises cache_manager "expensive_name" truncated _ _
             Hfile Hbad).
  - exact (corrupt_entry_raises cache_manager "expensive_name" emptied _ _
             Hfile0 Hbad0).
Defined.

Lemma init_checks_folder_witness :
  __init__ "/home/user/missing" start = (Raise AssertionError, start) /\
  __init__ some_folder_path start
  = (Return {| cache_folder_path := some_folder_path |}, start).
Proof.
  assert (Hno : disk start !! "/home/user/missing" <> Some Dir)
    by (vm_compute; discriminate).
  assert (Hdir : disk start !! some_folder_path = Some Dir)
    by (vm_compute; reflexivity).
  split.
  - exact (proj1 (init_checks_folder "/home/user/missing" start) Hno).
  - exact (proj2 (init_checks_folder some_folder_path start) Hdir).
Defined.

Lemma other_entries_untouched_witness :
  let after_put := snd (put_in_cache cache_manager "test" (PyStr "a") stored) in
  let after_clear := snd (clear_from_cache cache_manager "test" stored) in
  (disk after_put !! locate cache_manager "expensive_name"
   = disk stored !! locate cache_manager "expensive_name" /\
   fst (has_in_cache cache_manager "expensive_name" after_put)
   = fst (has_in_cache cache_manager "expensive_name" stored) /\
   fst (retrieve_from_cache (V:=pyobj) cache_manager "expensive_name" after_put)
   = fst (retrieve_from_cache cache_manager "expensive_name" stored)) /\
  (disk after_clear !! locate cache_manager "expensive_name"
   = disk stored !! locate cache_manager "expensive_name" /\
   fst (has_in_cache cache_manager "expensive_name" after_clear)
   = fst (has_in_cache cache_manager "expensive_name" stored) /\
   fst (retrieve_from_cache (V:=pyobj) cache_manager "expensive_name" after_clear)
   = fst (retrieve_from_cache cache_manager "expensive_name" stored)).
Proof.
  assert (Hdig : str_to_hash "test" <> str_to_hash "expensive_name")
    by (vm_compute; discriminate).
  exact (other_entries_untouched cache_manager "test" "expensive_name"
           (PyStr "a") stored Hdig).
Defined.

Lemma str_to_hash_digest_witness :
  (str_to_hash "expensive_name"
   = SHA256.hex (SHA256.digest_of
                   (SHA256.sha256 (list_byte_of_string "expensive_name"))) /\
   String.length (str_to_hash "expensive_name") = 64%nat /\
   forallb is_hex_digit (list_ascii_of_string (str_to_hash "expensive_name")) = true) /\
  SHA256.digest_of (SHA256.sha256 (list_byte_of_string "expensive_name"))
  = SHA256.digest_of (SHA256.sha256 (list_byte_of_string "expensive_name")) /\
  locate cache_manager "expensive_name"
  = os.join (cache_folder_path cache_manager)
      (str_to_filename cache_manager "expensive_name").
Proof.
  assert (Hsame : str_to_hash "expensive_name" = str_to_hash "expensive_name")
    by reflexivity.
  split; [|split].
  - exact (proj1 str_to_hash_digest "expensive_name").
  - exact (proj1 (proj1 (proj2 str_to_hash_digest) "expensive_name" "expensive_name")
             Hsame).
  - exact (proj2 (proj1 (proj2 (proj2 (proj2 (proj2 str_to_hash_digest))))
                    cache_manager "expensive_name")).
Defined.

(** ** More on the methods: failed stores, invalidation, layout *)
Section Further.
Context {U V A : Type} `{Pickle V}.
Implicit Types (self : CacheManager) (key : string) (w : world U) (v : V).

Lemma world_eta w : World (disk w) (heap w) (calls w) = w.
Proof. destruct w. reflexivity. Qed.

(** The path of an entry is never the folder itself. *)
Lemma locate_not_folder self key : locate self key <> cache_folder_path self.
Proof.
  intros E. apply (f_equal String.length) in E. revert E.
  unfold locate, os.join.
  change (str_to_hash key +:+ ".pickle") with (str_to_filename self key).
  rewrite (filename_relative self key). cbn [orb].
  assert (Hlen : String.length (str_to_filename self key) = 71%nat).
  { unfold str_to_filename. rewrite append_length, str_to_hash_length. reflexivity. }
  case_bool_decide as Hempty.
  - rewrite Hempty, Hlen. discriminate.
  - destruct (os.endswith_sep (cache_folder_path self));
      rewrite !append_length, Hlen; cbn [String.length]; lia.
Qed.

(** X1. When [pickle.dump] fails on the value, the store raises the
    exception of pickle (PicklingError, AttributeError, TypeError, as the
    value has it), but the file has been opened for writing by then: what
    was there is gone, the file holds what was written before the failure,
    and the key counts as present. *)
Theorem failed_pickle_leaves_entry self key v w (e : exn) (written : list byte) :
  pickle_dumps v = DumpFailed e written ->
  disk w !! locate self key <> Some Dir ->
  os.has_parent (disk w) (locate self key) = true ->
  put_in_cache self key v w
  = (Raise e, set_disk (<[locate self key := File written]> (disk w)) w) /\
  has_in_cache self key (snd (put_in_cache self key v w))
  = (Return true, snd (put_in_cache self key v w)).
Proof.
  intros Hv Hnd Hp.
  assert (Hput : put_in_cache self key v w
                 = (Raise e,
                    set_disk (<[locate self key := File written]> (disk w)) w)).
  { rewrite put_in_cache_eq, Hp, Hv.
    destruct (disk w !! locate self key) as [[c|]|]; congruence. }
  rewrite Hput. split; [reflexivity|].
  rewrite has_in_cache_eq. unfold set_disk. cbn [snd disk].
  by rewrite lookup_insert_eq.
Qed.

(** X2. When the function returns a value that cannot be pickled,
    [cachify] raises the exception of pickle after the one call, and the
    file left by the failed store is taken for an entry from then on: a
    later [cachify] on the key calls nothing and gives what a load of that
    file gives, that is what [pickle.load] makes of the bytes written. *)
Theorem cachify_unpicklable_result
    self key (func func2 : callable) (args args2 : A) w v (u : U)
    (e : exn) (written : list byte) :
  disk w !! locate self key = None ->
  os.has_parent (disk w) (locate self key) = true ->
  func args (heap w) = (Return v, u) ->
  pickle_dumps v = DumpFailed e written ->
  let w1 := World (<[locate self key := File written]> (disk w)) u (S (calls w)) in
  cachify self key func args w = (Raise e, w1) /\
  cachify self key func2 args2 w1 = retrieve_from_cache self key w1 /\
  cachify self key func2 args2 w1 = (pickle_loads_result written, w1).
Proof.
  intros Hnone Hp Hrun Hv w1.
  assert (Hhit : disk w1 !! locate self key = Some (File written))
    by (unfold w1; cbn [disk]; apply lookup_insert_eq).
  split; [|split].
  - rewrite cachify_eq, Hnone, Hrun, put_in_cache_eq. cbn [disk].
    rewrite Hnone, Hp, Hv. reflexivity.
  - rewrite cachify_eq, Hhit. reflexivity.
  - rewrite cachify_eq, Hhit, retrieve_from_cache_eq, Hhit. reflexivity.
Qed.

(** X3. A store that cannot open its file raises and leaves the state as
    it was: IsADirectoryError when a directory sits at the path of the key;
    FileNotFoundError when nothing is at the path of the manager's folder
    any more, and NotADirectoryError when a regular file is there (the
    constructor checked the folder once; the methods do not check again). *)
Theorem blocked_store_changes_nothing self key v w :
  (disk w !! locate self key = Some Dir ->
   put_in_cache self key v w = (Raise IsADirectoryError, w)) /\
  (cache_folder_path self <> "" ->
   os.endswith_sep (cache_folder_path self) = false ->
   disk w !! locate self key <> Some Dir ->
   (disk w !! cache_folder_path self = None ->
    put_in_cache self key v w = (Raise FileNotFoundError, w)) /\
   (forall content,
      disk w !! cache_folder_path self = Some (File content) ->
      put_in_cache self key v w = (Raise NotADirectoryError, w))).
Proof.
  split.
  - intros Hdir. rewrite put_in_cache_eq, Hdir. reflexivity.
  - intros Hne Hend Hnd.
    assert (Hp : disk w !! cache_folder_path self <> Some Dir ->
                 os.has_parent (disk w) (locate self key) = false).
    { intros Hgone. unfold os.has_parent.
      rewrite (dirname_locate self key Hne Hend).
      rewrite bool_decide_eq_false_2 by exact Hne.
      destruct (disk w !! cache_folder_path self) as [[c|]|];
        try reflexivity. congruence. }
    split.
    + intros Hgone. rewrite put_in_cache_eq, Hp by (rewrite Hgone; discriminate).
      rewrite (dirname_locate self key Hne Hend), Hgone.
      destruct (disk w !! locate self key) as [[c|]|]; try reflexivity. congruence.
    + intros content Hfile.
      rewrite put_in_cache_eq, Hp by (rewrite Hfile; discriminate).
      rewrite (dirname_locate self key Hne Hend), Hfile.
      destruct (disk w !! locate self key) as [[c|]|]; try reflexivity. congruence.
Qed.

(** X4. When the store fails without touching the disk, [cachify] has
    called the function all the same, raises the error of the store and
    drops the value; the key still has no entry, so the next [cachify] calls
    the function again. *)
Theorem cachify_blocked_store_recomputes
    self key (func : callable) (args : A) w v (u : U) (e : exn) w2 :
  has_in_cache self key w = (Return false, w) ->
  func args (heap w) = (Return v, u) ->
  put_in_cache self key v (World (disk w) u (S (calls w))) = (Raise e, w2) ->
  disk w2 = disk w ->
  cachify self key func args w = (Raise e, w2) /\
  heap w2 = u /\ calls w2 = S (calls w) /\
  has_in_cache self key w2 = (Return false, w2) /\
  calls (snd (cachify self key func args w2)) = S (S (calls w)).
Proof.
  intros Hmiss Hrun Hput Hdisk.
  pose proof (put_in_cache_heap self key v (World (disk w) u (S (calls w)))) as [Hh Hc].
  rewrite Hput in Hh, Hc. cbn [snd heap calls] in Hh, Hc.
  assert (Hmiss2 : disk w2 !! locate self key = None \/
                   disk w2 !! locate self key = Some Dir)
    by (rewrite Hdisk; exact (has_in_cache_false _ _ _ Hmiss)).
  repeat split; try assumption.
  - rewrite cachify_eq, Hrun, Hput.
    destruct (has_in_cache_false _ _ _ Hmiss) as [-> | ->]; reflexivity.
  - rewrite has_in_cache_eq. destruct Hmiss2 as [-> | ->]; reflexivity.
  - rewrite cachify_eq.
    assert (Hcount : forall out : result V * world U,
              out = match func args (heap w2) with
                    | (Return v', u') =>
                        match put_in_cache self key v' (World (disk w2) u' (S (calls w2))) with
                        | (Return _, w3) => (Return v', w3)
                        | (Raise e', w3) => (Raise e', w3)
                        end
                    | (Raise e', u') => (Raise e', World (disk w2) u' (S (calls w2)))
                    end ->
              calls (snd out) = S (S (calls w))).
    { intros out ->. destruct (func args (heap w2)) as [[v'|e'] u'].
      - pose proof (put_in_cache_heap self key v' (World (disk w2) u' (S (calls w2))))
          as [_ Hc'].
        destruct (put_in_cache self key v' _) as [[[]|e'] w3];
          cbn [snd calls] in *; rewrite Hc', Hc; reflexivity.
      - cbn [snd calls]. by rewrite Hc. }
    destruct Hmiss2 as [-> | ->]; by apply Hcount.
Qed.

(** Taking the file of an entry away, or putting one there, does not
    change whether its directory is there. *)
Lemma has_parent_delete (d : gmap string node) (p : string) (data : list byte) :
  d !! p = Some (File data) ->
  os.has_parent (delete p d) p = os.has_parent d p.
Proof.
  intros Hfile. unfold os.has_parent. f_equal.
  destruct (decide (os.dirname p = p)) as [-> | Hne].
  - by rewrite lookup_delete_eq, Hfile.
  - by rewrite lookup_delete_ne.
Qed.

Lemma has_parent_insert (d : gmap string node) (p : string) (data : list byte) :
  d !! p <> Some Dir ->
  os.has_parent (<[p := File data]> d) p = os.has_parent d p.
Proof.
  intros Hnd. unfold os.has_parent. f_equal.
  destruct (decide (os.dirname p = p)) as [-> | Hne].
  - rewrite lookup_insert_eq. destruct (d !! p) as [[c|]|]; congruence.
  - by rewrite lookup_insert_ne.
Qed.

(** A remove undoes a store on a path where nothing was. *)
Lemma clear_after_put self key v w w' :
  disk w !! locate self key = None ->
  put_in_cache self key v w = (Return tt, w') ->
  clear_from_cache self key w' = (Return tt, w).
Proof.
  intros Hnone Hput.
  apply put_in_cache_inv in Hput as (data & _ & ->).
  rewrite clear_from_cache_eq. unfold set_disk. cbn [disk heap calls].
  by rewrite lookup_insert_eq, (delete_insert_id _ _ _ Hnone), world_eta.
Qed.

(** X5. A store on a path where nothing was, followed by a remove, gives
    back the state there was before the store; a second remove then raises
    FileNotFoundError. *)
Theorem store_then_clear_restores self key v w w' :
  disk w !! locate self key = None ->
  put_in_cache self key v w = (Return tt, w') ->
  clear_from_cache self key w' = (Return tt, w) /\
  clear_from_cache self key w = (Raise FileNotFoundError, w).
Proof.
  intros Hnone Hput. split.
  - exact (clear_after_put self key v w w' Hnone Hput).
  - rewrite clear_from_cache_eq, Hnone. reflexivity.
Qed.

(** X6. An entry whose bytes cannot be read is never computed again:
    [cachify] raises the exception that [pickle.load] raises for the bytes,
    calls nothing and leaves the file as it is, so every later call does the
    same. *)
Theorem cachify_corrupt_entry_sticks
    self key (func : callable) (args : A) w (data : list byte) (e : exn) :
  disk w !! locate self key = Some (File data) ->
  pickle_loads_result data = Raise e ->
  cachify self key func args w = (Raise e, w) /\
  cachify self key func args (snd (cachify self key func args w))
  = (Raise e, w).
Proof.
  intros Hfile Hbad.
  assert (Hout : cachify self key func args w = (Raise e, w))
    by (rewrite cachify_eq, Hfile, retrieve_from_cache_eq, Hfile, Hbad; reflexivity).
  rewrite Hout. split; [reflexivity | exact Hout].
Qed.

(** X7. Removing an entry makes [cachify] compute again: after a remove of
    a present key, whatever the file held, [cachify] calls the function
    once, stores the new value in place of the old file and returns it. *)
Theorem clear_then_cachify_recomputes
    self key (func : callable) (args : A) w v (u : U) (old new : list byte) :
  disk w !! locate self key = Some (File old) ->
  os.has_parent (disk w) (locate self key) = true ->
  func args (heap w) = (Return v, u) ->
  pickle_dumps v = Dumped new ->
  exists w1,
    clear_from_cache self key w = (Return tt, w1) /\
    cachify self key func args w1
    = (Return v, World (<[locate self key := File new]> (disk w)) u (S (calls w))).
Proof.
  intros Hfile Hp Hrun Hv.
  exists (set_disk (delete (locate self key) (disk w)) w). split.
  - rewrite clear_from_cache_eq, Hfile. reflexivity.
  - rewrite cachify_eq. unfold set_disk. cbn [disk heap calls].
    rewrite lookup_delete_eq, Hrun, put_in_cache_eq. cbn [disk heap calls].
    rewrite lookup_delete_eq, (has_parent_delete _ _ _ Hfile), Hp, Hv.
    unfold set_disk. cbn [disk heap calls].
    by rewrite insert_delete_eq.
Qed.

(** X8. Whatever the key, its file sits in the folder of the manager and
    nowhere else: the file name has 71 characters and no separator, the
    path is the folder, at most one separator, and the file name, it is
    never the folder itself, and its directory is the folder. *)
Theorem entries_stay_in_folder self key :
  String.length (str_to_filename self key) = 71%nat /\
  forallb (fun c => negb (os.is_sep c))
          (list_ascii_of_string (str_to_filename self key)) = true /\
  (locate self key = cache_folder_path self +:+ str_to_filename self key \/
   locate self key = cache_folder_path self +:+ "/" +:+ str_to_filename self key) /\
  locate self key <> cache_folder_path self /\
  (cache_folder_path self <> "" ->
   os.endswith_sep (cache_folder_path self) = false ->
   os.dirname (locate self key) = cache_folder_path self).
Proof.
  split; [|split; [|split; [|split]]].
  - unfold str_to_filename. rewrite append_length, str_to_hash_length. reflexivity.
  - apply filename_no_sep.
  - unfold locate, os.join.
    change (str_to_hash key +:+ ".pickle") with (str_to_filename self key).
    rewrite (filename_relative self key). cbn [orb].
    case_bool_decide as Hempty.
    + left. rewrite Hempty. reflexivity.
    + destruct (os.endswith_sep (cache_folder_path self)); [left | right]; reflexivity.
  - apply locate_not_folder.
  - apply dirname_locate.
Qed.

(** X9. [cachify] writes at most the file of its own key, and only when
    no file is there: every file on the disk is the same after the call as
    before, and a key with another digest has the entry it had. *)
Theorem cachify_first_writer_wins
    self (k1 k2 : string) (func : callable) (args : A) w :
  (forall (p : string) (data : list byte),
     disk w !! p = Some (File data) ->
     disk (snd (cachify self k1 func args w)) !! p = Some (File data)) /\
  (str_to_hash k1 <> str_to_hash k2 ->
   disk (snd (cachify self k1 func args w)) !! locate self k2
   = disk w !! locate self k2 /\
   fst (has_in_cache self k2 (snd (cachify self k1 func args w)))
   = fst (has_in_cache self k2 w) /\
   fst (retrieve_from_cache self k2 (snd (cachify self k1 func args w)))
   = fst (retrieve_from_cache self k2 w)).
Proof.
  split.
  - intros p data Hfile.
    destruct (decide (p = locate self k1)) as [-> | Hne].
    + assert (Hhit : has_in_cache self k1 w = (Return true, w))
        by (rewrite has_in_cache_eq, Hfile; reflexivity).
      destruct (cachify_hit self k1 func args w Hhit) as [_ ->]. exact Hfile.
    + rewrite (cachify_frame self k1 func args w p Hne). exact Hfile.
  - intros Hdig.
    assert (Hpath : locate self k2 <> locate self k1).
    { intros E. apply Hdig. symmetry. exact (locate_digest_inj self k2 k1 E). }
    pose proof (cachify_frame self k1 func args w _ Hpath) as Hsame.
    split; [exact Hsame|]. apply readers_same_file. exact Hsame.
Qed.

(** X10. A load changes nothing, whatever it gives, and it returns a value
    only for a key that [has_in_cache] reports, the value that the bytes of
    its file decode to; for a key that [has_in_cache] does not report it
    raises FileNotFoundError or IsADirectoryError. *)
Theorem load_needs_entry self key w :
  snd (retrieve_from_cache self key w) = w /\
  (forall v,
     fst (retrieve_from_cache self key w) = Return v ->
     has_in_cache self key w = (Return true, w) /\
     exists data,
       disk w !! locate self key = Some (File data) /\
       pickle_loads data = Some v) /\
  (has_in_cache self key w = (Return false, w) ->
   fst (retrieve_from_cache self key w) = Raise FileNotFoundError \/
   fst (retrieve_from_cache self key w) = Raise IsADirectoryError).
Proof.
  rewrite retrieve_from_cache_eq, has_in_cache_eq.
  generalize (locate self key). intros p.
  destruct (disk w !! p) as [[data|]|].
  - cbn [fst snd]. split; [reflexivity|]. split; [|discriminate].
    intros x Hload. split; [reflexivity|].
    exists data. split; [reflexivity|]. by apply loads_result_some.
  - cbn [fst snd]. split; [reflexivity|]. split; [discriminate|]. by right.
  - cbn [fst snd]. split; [reflexivity|]. split; [discriminate|]. by left.
Qed.

(** X11. From a folder that holds nothing: the constructor returns the
    manager; [cachify] with a function that returns a value that can be
    pickled returns that value; the folder then holds the one entry and
    nothing more; and [cachify] on the same key with any other function
    and arguments returns the first value still. *)
Theorem fresh_folder_scenario `{!PickleRoundTrip V}
    (folder key : string) (func func2 : callable) (args args2 : A)
    (u u1 : U) (n : nat) v (data : list byte) :
  os.endswith_sep folder = false ->
  func args u = (Return v, u1) ->
  pickle_dumps v = Dumped data ->
  let self := {| cache_folder_path := folder |} in
  let w0 := World {[ folder := Dir ]} u n in
  let w1 := World (<[locate self key := File data]> {[ folder := Dir ]}) u1 (S n) in
  __init__ folder w0 = (Return self, w0) /\
  cachify self key func args w0 = (Return v, w1) /\
  size (disk w1) = 2%nat /\
  cachify self key func2 args2 w1 = (Return v, w1).
Proof.
  intros Hend Hrun Hv self w0 w1.
  assert (Hne : locate self key <> folder) by exact (locate_not_folder self key).
  assert (Hnone : disk w0 !! locate self key = None)
    by (unfold w0; cbn [disk]; by rewrite lookup_singleton_ne).
  assert (Hdir : disk w0 !! cache_folder_path self = Some Dir)
    by (unfold w0, self; cbn [disk cache_folder_path]; apply lookup_singleton_eq).
  assert (Hput : put_in_cache self key v (World (disk w0) u1 (S (calls w0)))
                 = (Return tt, w1)).
  { rewrite (put_in_cache_in_folder self key v _ data); cbn [disk];
      [reflexivity | exact Hdir | exact Hend | rewrite Hnone; discriminate | exact Hv]. }
  split; [|split; [|split]].
  - unfold __init__, bind, os.isdir, w0. cbn [disk].
    rewrite lookup_singleton_eq. reflexivity.
  - rewrite cachify_eq, Hnone. cbn [heap w0]. rewrite Hrun, Hput. reflexivity.
  - unfold w1. cbn [disk].
    rewrite map_size_insert_None by (by rewrite lookup_singleton_ne).
    by rewrite map_size_singleton.
  - exact (cachify_after_put self key func2 args2 v _ _ Hput).
Qed.

(** X12. The last store wins, and nothing of an earlier one is left: a
    store on top of another gives the state that the second store alone
    gives, and it returns whenever the first did and the value can be
    pickled. *)
Theorem store_over_store self key v1 v2 w w1 w2 :
  put_in_cache self key v1 w = (Return tt, w1) ->
  put_in_cache self key v2 w = (Return tt, w2) ->
  put_in_cache self key v2 w1 = (Return tt, w2).
Proof.
  intros Hput1 Hput2.
  assert (Hcond : disk w !! locate self key <> Some Dir /\
                  os.has_parent (disk w) (locate self key) = true).
  { rewrite put_in_cache_eq in Hput1.
    destruct (disk w !! locate self key) as [[c|]|];
      (destruct (os.has_parent (disk w) (locate self key));
       [|destruct (disk w !! os.dirname (locate self key)) as [[c'|]|]]);
      try discriminate; split; congruence. }
  destruct Hcond as [Hnd Hp].
  apply put_in_cache_inv in Hput1 as (d1 & _ & ->).
  apply put_in_cache_inv in Hput2 as (d2 & Hv2 & ->).
  rewrite (put_in_cache_returns self key v2 _ d2); unfold set_disk; cbn [disk heap calls].
  - by rewrite insert_insert_eq.
  - rewrite lookup_insert_eq. discriminate.
  - rewrite (has_parent_insert _ _ _ Hnd). exact Hp.
  - exact Hv2.
Qed.

(** X17. Wrappers made by [memoize] under keys with different digests do
    not meet: from a state where neither key has an entry, each wrapper
    returns the value of its own function at its first call and keeps
    returning it, whatever the arguments, and each function has been called
    once. *)
Theorem memoize_keys_independent `{!PickleRoundTrip V}
    self (k1 k2 : string) (f1 f2 : callable) (a1 a2 b1 b2 : A) w
    v1 v2 (u1 u2 : U) (d1 d2 : list byte) :
  str_to_hash k1 <> str_to_hash k2 ->
  disk w !! cache_folder_path self = Some Dir ->
  os.endswith_sep (cache_folder_path self) = false ->
  disk w !! locate self k1 = None ->
  disk w !! locate self k2 = None ->
  f1 a1 (heap w) = (Return v1, u1) ->
  f2 a2 u1 = (Return v2, u2) ->
  pickle_dumps v1 = Dumped d1 ->
  pickle_dumps v2 = Dumped d2 ->
  let w1 := World (<[locate self k1 := File d1]> (disk w)) u1 (S (calls w)) in
  let w2 := World (<[locate self k2 := File d2]> (disk w1)) u2 (S (S (calls w))) in
  memoize self k1 f1 a1 w = (Return v1, w1) /\
  memoize self k2 f2 a2 w1 = (Return v2, w2) /\
  memoize self k1 f1 b1 w2 = (Return v1, w2) /\
  memoize self k2 f2 b2 w2 = (Return v2, w2).
Proof.
  intros Hdig Hdir Hend Hn1 Hn2 Hr1 Hr2 Hv1 Hv2 w1 w2. unfold memoize.
  assert (Hpath : locate self k2 <> locate self k1).
  { intros E. apply Hdig. symmetry. exact (locate_digest_inj self k2 k1 E). }
  assert (Hput1 : put_in_cache self k1 v1 (World (disk w) u1 (S (calls w)))
                  = (Return tt, w1)).
  { rewrite (put_in_cache_in_folder self k1 v1 _ d1); cbn [disk];
      [reflexivity | exact Hdir | exact Hend | rewrite Hn1; discriminate | exact Hv1]. }
  assert (Hn2' : disk w1 !! locate self k2 = None)
    by (unfold w1; cbn [disk]; by rewrite lookup_insert_ne).
  assert (Hput2 : put_in_cache self k2 v2 (World (disk w1) u2 (S (calls w1)))
                  = (Return tt, w2)).
  { rewrite (put_in_cache_in_folder self k2 v2 _ d2); cbn [disk];
      [reflexivity | | exact Hend | rewrite Hn2'; discriminate | exact Hv2].
    unfold w1. cbn [disk].
    rewrite lookup_insert_ne by exact (locate_not_folder self k1). exact Hdir. }
  assert (Hfile1 : disk w2 !! locate self k1 = Some (File d1)).
  { unfold w2, w1. cbn [disk].
    rewrite lookup_insert_ne by exact Hpath. apply lookup_insert_eq. }
  split; [|split; [|split]].
  - rewrite cachify_eq, Hn1, Hr1, Hput1. reflexivity.
  - rewrite cachify_eq, Hn2'. cbn [heap w1]. rewrite Hr2, Hput2. reflexivity.
  - rewrite cachify_eq, Hfile1, retrieve_from_cache_eq, Hfile1.
    by rewrite (proj1 (loads_result_some d1 v1) (pickle_round_trip v1 d1 Hv1)).
  - exact (cachify_after_put self k2 f2 b2 v2 _ _ Hput2).
Qed.

End Further.

(** ** The checks of the module pass on every key *)
Section HarnessFacts.
Import Pickle3 Harness.
Context {U : Type} (cache_manager : CacheManager).
Implicit Types (w : world U) (keys : list string).

(** One store and one remove of a [str] under a key whose path is free, in
    a folder that is there: the store returns, the entry is there and
    holds the object, and the remove gives the first state back. *)
Lemma store_and_clear_turn (s : string) (data : list byte) (key : string) w :
  pickle_dumps (PyStr s) = Dumped data ->
  disk w !! cache_folder_path cache_manager = Some Dir ->
  os.endswith_sep (cache_folder_path cache_manager) = false ->
  disk w !! locate cache_manager key = None ->
  exists w',
    put_in_cache cache_manager key (PyStr s) w = (Return tt, w') /\
    has_in_cache cache_manager key w' = (Return true, w') /\
    retrieve_from_cache cache_manager key w' = (Return (PyStr s), w') /\
    clear_from_cache cache_manager key w' = (Return tt, w) /\
    has_in_cache cache_manager key w = (Return false, w).
Proof.
  intros Hv Hdir Hend Hnone.
  assert (Hput : put_in_cache cache_manager key (PyStr s) w
                 = (Return tt,
                    set_disk (<[locate cache_manager key := File data]> (disk w)) w)).
  { apply put_in_cache_in_folder; [exact Hdir | exact Hend | | exact Hv].
    rewrite Hnone. discriminate. }
  eexists. split; [exact Hput|]. split; [|split; [|split]].
  - exact (has_after_put _ _ _ _ _ Hput).
  - exact (retrieve_after_put _ _ _ _ _ Hput).
  - exact (clear_after_put _ _ _ _ _ Hnone Hput).
  - rewrite has_in_cache_eq, Hnone. reflexivity.
Qed.

(** X13. [test_has_in_cache] returns [True] over any keys whose paths are
    free, in a folder that is there, and leaves the state as it found it. *)
Theorem has_in_cache_check_returns_true keys w :
  disk w !! cache_folder_path cache_manager = Some Dir ->
  os.endswith_sep (cache_folder_path cache_manager) = false ->
  Forall (fun key => disk w !! locate cache_manager key = None) keys ->
  test_has_in_cache cache_manager keys w = (Return true, w).
Proof.
  intros Hdir Hend Hfree.
  induction Hfree as [|key keys Hnone _ IH]; [reflexivity|].
  destruct (store_and_clear_turn "a" _ key w eq_refl Hdir Hend Hnone)
    as (w' & Hput & Hthere & _ & Hclear & Hgone).
  cbn [test_has_in_cache]. unfold bind.
  rewrite Hput, Hthere. cbn [negb]. rewrite Hclear, Hgone. exact IH.
Qed.

(** X14. [test_retrieve_from_cache] returns [True] over any keys whose
    paths are free, in a folder that is there: what is loaded is the object
    stored; the state is left as it was found. *)
Theorem retrieve_check_returns_true keys w :
  disk w !! cache_folder_path cache_manager = Some Dir ->
  os.endswith_sep (cache_folder_path cache_manager) = false ->
  Forall (fun key => disk w !! locate cache_manager key = None) keys ->
  test_retrieve_from_cache cache_manager keys w = (Return true, w).
Proof.
  intros Hdir Hend Hfree.
  induction Hfree as [|key keys Hnone _ IH]; [reflexivity|].
  destruct (store_and_clear_turn "test" _ key w eq_refl Hdir Hend Hnone)
    as (w' & Hput & _ & Hload & Hclear & _).
  cbn [test_retrieve_from_cache]. unfold bind.
  rewrite Hput, Hload.
  rewrite bool_decide_eq_false_2 by (intros Hdiff; by apply Hdiff).
  rewrite Hclear. exact IH.
Qed.

(** X15. [test_clear_from_cache] returns [True] over any keys whose paths
    are free, in a folder that is there, and leaves the state as it found
    it. *)
Theorem clear_check_returns_true keys w :
  disk w !! cache_folder_path cache_manager = Some Dir ->
  os.endswith_sep (cache_folder_path cache_manager) = false ->
  Forall (fun key => disk w !! locate cache_manager key = None) keys ->
  test_clear_from_cache cache_manager keys w = (Return true, w).
Proof.
  intros Hdir Hend Hfree.
  induction Hfree as [|key keys Hnone _ IH]; [reflexivity|].
  destruct (store_and_clear_turn "test" _ key w eq_refl Hdir Hend Hnone)
    as (w' & Hput & _ & _ & Hclear & Hgone).
  cbn [test_clear_from_cache]. unfold bind.
  rewrite Hput, Hclear, Hgone. exact IH.
Qed.

(** X16. [test_put_in_cache] returns [True] over any keys whose paths are
    free, in a folder that is there, and leaves the state as it found it. *)
Theorem put_check_returns_true keys w :
  disk w !! cache_folder_path cache_manager = Some Dir ->
  os.endswith_sep (cache_folder_path cache_manager) = false ->
  Forall (fun key => disk w !! locate cache_manager key = None) keys ->
  test_put_in_cache cache_manager keys w = (Return true, w).
Proof.
  intros Hdir Hend Hfree.
  induction Hfree as [|key keys Hnone _ IH]; [reflexivity|].
  destruct (store_and_clear_turn "test" _ key w eq_refl Hdir Hend Hnone)
    as (w' & Hput & Hthere & _ & Hclear & _).
  cbn [test_put_in_cache]. unfold bind.
  rewrite Hput, Hthere. cbn [negb]. rewrite Hclear. exact IH.
Qed.

End HarnessFacts.

(** ** The further facts on the module's own values *)
Import Pickle3 Tests Cases.

Lemma failed_pickle_leaves_entry_witness :
  (put_in_cache cache_manager "expensive_name" PyLambda stored
   = (Raise PicklingError,
      set_disk (<[locate cache_manager "expensive_name" := File []]> (disk stored))
        stored) /\
   has_in_cache cache_manager "expensive_name"
     (snd (put_in_cache cache_manager "expensive_name" PyLambda stored))
   = (Return true, snd (put_in_cache cache_manager "expensive_name" PyLambda stored))) /\
  (put_in_cache cache_manager "expensive_name" PyLocalFunction start
   = (Raise AttributeError,
      set_disk (<[locate cache_manager "expensive_name" := File []]> (disk start))
        start) /\
   has_in_cache cache_manager "expensive_name"
     (snd (put_in_cache cache_manager "expensive_name" PyLocalFunction start))
   = (Return true,
      snd (put_in_cache cache_manager "expensive_name" PyLocalFunction start))) /\
  (put_in_cache cache_manager "expensive_name" PyGenerator start
   = (Raise TypeError,
      set_disk (<[locate cache_manager "expensive_name" := File []]> (disk start))
        start) /\
   has_in_cache cache_manager "expensive_name"
     (snd (put_in_cache cache_manager "expensive_name" PyGenerator start))
   = (Return true,
      snd (put_in_cache cache_manager "expensive_name" PyGenerator start))).
Proof.
  assert (Hv1 : pickle_dumps PyLambda = DumpFailed PicklingError []) by reflexivity.
  assert (Hv2 : pickle_dumps PyLocalFunction = DumpFailed AttributeError [])
    by reflexivity.
  assert (Hv3 : pickle_dumps PyGenerator = DumpFailed TypeError []) by reflexivity.
  assert (Hnd : disk start !! locate cache_manager "expensive_name" <> Some Dir)
    by (vm_compute; discriminate).
  assert (Hp : os.has_parent (disk start) (locate cache_manager "expensive_name")
               = true) by (vm_compute; reflexivity).
  assert (Hnd' : disk stored !! locate cache_manager "expensive_name" <> Some Dir)
    by (vm_compute; discriminate).
  assert (Hp' : os.has_parent (disk stored) (locate cache_manager "expensive_name")
                = true) by (vm_compute; reflexivity).
  split; [|split].
  - exact (failed_pickle_leaves_entry cache_manager "expensive_name" PyLambda stored
             _ _ Hv1 Hnd' Hp').
  - exact (failed_pickle_leaves_entry cache_manager "expensive_name" PyLocalFunction
             start _ _ Hv2 Hnd Hp).
  - exact (failed_pickle_leaves_entry cache_manager "expensive_name" PyGenerator
             start _ _ Hv3 Hnd Hp).
Defined.

Lemma cachify_unpicklable_result_witness :
  let w1 := World (<[locate cache_manager "expensive_name" := File []]> (disk start))
              1 (S (calls start)) in
  cachify cache_manager "expensive_name" lambda_function hello start
  = (Raise PicklingError, w1) /\
  cachify cache_manager "expensive_name" expensive_function other_args w1
  = retrieve_from_cache cache_manager "expensive_name" w1 /\
  cachify cache_manager "expensive_name" expensive_function other_args w1
  = (Raise EOFError, w1).
Proof.
  assert (Hnone : disk start !! locate cache_manager "expensive_name" = None)
    by (vm_compute; reflexivity).
  assert (Hp : os.has_parent (disk start) (locate cache_manager "expensive_name")
               = true) by (vm_compute; reflexivity).
  assert (Hrun : lambda_function hello (heap start) = (Return PyLambda, 1))
    by reflexivity.
  assert (Hv : pickle_dumps PyLambda = DumpFailed PicklingError []) by reflexivity.
  assert (Hbad : pickle_loads_result (V:=pyobj) [] = Raise EOFError) by reflexivity.
  intros w1.
  destruct (cachify_unpicklable_result cache_manager "expensive_name"
              lambda_function expensive_function hello other_args start
              PyLambda 1 _ [] Hnone Hp Hrun Hv) as (H1 & H2 & H3).
  rewrite Hbad in H3.
  exact (conj H1 (conj H2 H3)).
Defined.

Lemma blocked_store_changes_nothing_witness :
  put_in_cache cache_manager "expensive_name" (PyStr "a") blocked
  = (Raise IsADirectoryError, blocked) /\
  put_in_cache cache_manager "expensive_name" (PyStr "a") no_folder
  = (Raise FileNotFoundError, no_folder) /\
  put_in_cache cache_manager "expensive_name" (PyStr "a") folder_is_file
  = (Raise NotADirectoryError, folder_is_file).
Proof.
  assert (Hdir : disk blocked !! locate cache_manager "expensive_name" = Some Dir)
    by (vm_compute; reflexivity).
  assert (Hne : cache_folder_path cache_manager <> "") by discriminate.
  assert (Hend : os.endswith_sep (cache_folder_path cache_manager) = false)
    by reflexivity.
  assert (Hgone : disk no_folder !! cache_folder_path cache_manager = None)
    by (vm_compute; reflexivity).
  assert (Hnd : disk no_folder !! locate cache_manager "expensive_name" <> Some Dir)
    by (vm_compute; discriminate).
  assert (Hfile : disk folder_is_file !! cache_folder_path cache_manager
                  = Some (File [])) by (vm_compute; reflexivity).
  assert (Hnd' : disk folder_is_file !! locate cache_manager "expensive_name"
                 <> Some Dir) by (vm_compute; discriminate).
  split; [|split].
  - exact (proj1 (blocked_store_changes_nothing cache_manager "expensive_name"
                    (PyStr "a") blocked) Hdir).
  - exact (proj1 (proj2 (blocked_store_changes_nothing cache_manager
                           "expensive_name" (PyStr "a") no_folder) Hne Hend Hnd)
             Hgone).
  - exact (proj2 (proj2 (blocked_store_changes_nothing cache_manager
                           "expensive_name" (PyStr "a") folder_is_file)
                    Hne Hend Hnd') _ Hfile).
Defined.

Lemma cachify_blocked_store_recomputes_witness :
  cachify cache_manager "expensive_name" expensive_function hello blocked
  = (Raise IsADirectoryError, World (disk blocked) 1 (S (calls blocked))) /\
  heap (World (disk blocked) 1 (S (calls blocked))) = 1 /\
  calls (World (disk blocked) 1 (S (calls blocked))) = S (calls blocked) /\
  has_in_cache cache_manager "expensive_name"
    (World (disk blocked) 1 (S (calls blocked)))
  = (Return false, World (disk blocked) 1 (S (calls blocked))) /\
  calls (snd (cachify cache_manager "expensive_name" expensive_function hello
                (World (disk blocked) 1 (S (calls blocked)))))
  = S (S (calls blocked)).
Proof.
  assert (Hmiss : has_in_cache cache_manager "expensive_name" blocked
                  = (Return false, blocked)) by (vm_compute; reflexivity).
  assert (Hrun : expensive_function hello (heap blocked)
                 = (Return (PyStr "Hello World!"), 1)) by (vm_compute; reflexivity).
  assert (Hput : put_in_cache cache_manager "expensive_name" (PyStr "Hello World!")
                   (World (disk blocked) 1 (S (calls blocked)))
                 = (Raise IsADirectoryError,
                    World (disk blocked) 1 (S (calls blocked))))
    by (vm_compute; reflexivity).
  exact (cachify_blocked_store_recomputes cache_manager "expensive_name"
           expensive_function hello blocked _ _ _ _ Hmiss Hrun Hput eq_refl).
Defined.

Lemma store_then_clear_restores_witness :
  clear_from_cache cache_manager "expensive_name" stored
  = (Return tt, World (disk start) 1 1) /\
  clear_from_cache cache_manager "expensive_name" (World (disk start) 1 1)
  = (Raise FileNotFoundError, World (disk start) 1 1).
Proof.
  assert (Hnone : disk (World (U:=nat) (disk start) 1 1)
                    !! locate cache_manager "expensive_name" = None)
    by (vm_compute; reflexivity).
  assert (Hput : put_in_cache cache_manager "expensive_name" (PyStr "Hello World!")
                   (World (disk start) 1 1)
                 = (Return tt, stored)) by (vm_compute; reflexivity).
  exact (store_then_clear_restores cache_manager "expensive_name" _ _ _ Hnone Hput).
Defined.

Lemma cachify_corrupt_entry_sticks_witness :
  (cachify cache_manager "expensive_name" expensive_function hello truncated
   = (Raise UnpicklingError, truncated) /\
   cachify cache_manager "expensive_name" expensive_function hello
     (snd (cachify cache_manager "expensive_name" expensive_function hello truncated))
   = (Raise UnpicklingError, truncated)) /\
  (cachify cache_manager "expensive_name" expensive_function hello emptied
   = (Raise EOFError, emptied) /\
   cachify cache_manager "expensive_name" expensive_function hello
     (snd (cachify cache_manager "expensive_name" expensive_function hello emptied))
   = (Raise EOFError, emptied)).
Proof.
  assert (Hfile : disk truncated !! locate cache_manager "expensive_name"
                  = Some (File [x80; x03; x58; x0c; x00; x00; x00; x48; x65]))
    by (vm_compute; reflexivity).
  assert (Hbad : pickle_loads_result (V:=pyobj)
                   [x80; x03; x58; x0c; x00; x00; x00; x48; x65]
                 = Raise UnpicklingError)
    by (vm_compute; reflexivity).
  assert (Hfile0 : disk emptied !! locate cache_manager "expensive_name"
                   = Some (File [])) by (vm_compute; reflexivity).
  assert (Hbad0 : pickle_loads_result (V:=pyobj) [] = Raise EOFError)
    by (vm_compute; reflexivity).
  split.
  - exact (cachify_corrupt_entry_sticks cache_manager "expensive_name"
             expensive_function hello truncated _ _ Hfile Hbad).
  - exact (cachify_corrupt_entry_sticks cache_manager "expensive_name"
             expensive_function hello emptied _ _ Hfile0 Hbad0).
Defined.

Lemma clear_then_cachify_recomputes_witness :
  exists w1,
    clear_from_cache cache_manager "expensive_name" stored = (Return tt, w1) /\
    cachify cache_manager "expensive_name" other_function other_args w1
    = (Return (PyStr "X-Y-Z"),
       World (<[locate cache_manager "expensive_name" := File xyz_pickle]>
                (disk stored)) 2 (S (calls stored))).
Proof.
  assert (Hfile : disk stored !! locate cache_manager "expensive_name"
                  = Some (File hello_pickle)) by (vm_compute; reflexivity).
  assert (Hp : os.has_parent (disk stored) (locate cache_manager "expensive_name")
               = true) by (vm_compute; reflexivity).
  assert (Hrun : other_function other_args (heap stored)
                 = (Return (PyStr "X-Y-Z"), 2)) by (vm_compute; reflexivity).
  assert (Hv : pickle_dumps (PyStr "X-Y-Z") = Dumped xyz_pickle)
    by (vm_compute; reflexivity).
  exact (clear_then_cachify_recomputes cache_manager "expensive_name"
           other_function other_args stored _ _ _ _ Hfile Hp Hrun Hv).
Defined.

Lemma entries_stay_in_folder_witness :
  os.dirname (locate cache_manager "../../etc/passwd")
  = cache_folder_path cache_manager.
Proof.
  assert (Hne : cache_folder_path cache_manager <> "") by discriminate.
  assert (Hend : os.endswith_sep (cache_folder_path cache_manager) = false)
    by reflexivity.
  exact (proj2 (proj2 (proj2 (proj2
           (entries_stay_in_folder cache_manager "../../etc/passwd")))) Hne Hend).
Defined.

Lemma cachify_first_writer_wins_witness :
  disk (snd (cachify cache_manager "expensive_name" other_function other_args stored))
    !! locate cache_manager "expensive_name" = Some (File hello_pickle) /\
  disk (snd (cachify cache_manager "test" other_function other_args stored))
    !! locate cache_manager "expensive_name"
  = disk stored !! locate cache_manager "expensive_name" /\
  fst (has_in_cache cache_manager "expensive_name"
         (snd (cachify cache_manager "test" other_function other_args stored)))
  = fst (has_in_cache cache_manager "expensive_name" stored) /\
  fst (retrieve_from_cache (V:=pyobj) cache_manager "expensive_name"
         (snd (cachify cache_manager "test" other_function other_args stored)))
  = fst (retrieve_from_cache cache_manager "expensive_name" stored).
Proof.
  assert (Hfile : disk stored !! locate cache_manager "expensive_name"
                  = Some (File hello_pickle)) by (vm_compute; reflexivity).
  assert (Hdig : str_to_hash "test" <> str_to_hash "expensive_name")
    by (vm_compute; discriminate).
  split.
  - exact (proj1 (cachify_first_writer_wins cache_manager "expensive_name" "test"
                    other_function other_args stored) _ _ Hfile).
  - exact (proj2 (cachify_first_writer_wins cache_manager "test" "expensive_name"
                    other_function other_args stored) Hdig).
Defined.

Lemma load_needs_entry_witness :
  (has_in_cache cache_manager "expensive_name" stored = (Return true, stored) /\
   exists data,
     disk stored !! locate cache_manager "expensive_name" = Some (File data) /\
     pickle_loads data = Some (PyStr "Hello World!")) /\
  (fst (retrieve_from_cache (V:=pyobj) cache_manager "expensive_name" blocked)
   = Raise FileNotFoundError \/
   fst (retrieve_from_cache (V:=pyobj) cache_manager "expensive_name" blocked)
   = Raise IsADirectoryError).
Proof.
  assert (Hload : fst (retrieve_from_cache cache_manager "expensive_name" stored)
                  = Return (PyStr "Hello World!")) by (vm_compute; reflexivity).
  assert (Hmiss : has_in_cache cache_manager "expensive_name" blocked
                  = (Return false, blocked)) by (vm_compute; reflexivity).
  split.
  - exact (proj1 (proj2 (load_needs_entry cache_manager "expensive_name" stored))
             _ Hload).
  - exact (proj2 (proj2 (load_needs_entry (V:=pyobj) cache_manager "expensive_name"
                           blocked)) Hmiss).
Defined.

Lemma fresh_folder_scenario_witness :
  let self := {| cache_folder_path := some_folder_path |} in
  let w0 := World {[ some_folder_path := Dir ]} 0 0 in
  let w1 := World (<[locate self "concat" := File hello_pickle]>
                     {[ some_folder_path := Dir ]}) 1 1 in
  __init__ some_folder_path w0 = (Return self, w0) /\
  cachify self "concat" expensive_function hello w0
  = (Return (PyStr "Hello World!"), w1) /\
  size (disk w1) = 2%nat /\
  cachify self "concat" other_function other_args w1
  = (Return (PyStr "Hello World!"), w1).
Proof.
  assert (Hend : os.endswith_sep some_folder_path = false) by reflexivity.
  assert (Hrun : expensive_function hello 0 = (Return (PyStr "Hello World!"), 1))
    by (vm_compute; reflexivity).
  assert (Hv : pickle_dumps (PyStr "Hello World!") = Dumped hello_pickle)
    by (vm_compute; reflexivity).
  exact (fresh_folder_scenario some_folder_path "concat" expensive_function
           other_function hello other_args 0 1 0 _ _ Hend Hrun Hv).
Defined.

Lemma store_over_store_witness :
  put_in_cache cache_manager "expensive_name" (PyStr "Hello World!")
    (World (<[locate cache_manager "expensive_name" := File a_pickle]> (disk start))
       1 1)
  = (Return tt, stored).
Proof.
  assert (Hput1 : put_in_cache cache_manager "expensive_name" (PyStr "a")
                    (World (disk start) 1 1)
                  = (Return tt,
                     World (<[locate cache_manager "expensive_name"
                              := File a_pickle]> (disk start)) 1 1))
    by (vm_compute; reflexivity).
  assert (Hput2 : put_in_cache cache_manager "expensive_name" (PyStr "Hello World!")
                    (World (disk start) 1 1)
                  = (Return tt, stored)) by (vm_compute; reflexivity).
  exact (store_over_store cache_manager "expensive_name" _ _ _ _ _ Hput1 Hput2).
Defined.

Lemma keys_free_at_start :
  Forall (fun key => disk start !! locate cache_manager key = None) keys.
Proof.
  unfold keys.
  repeat (apply List.Forall_cons; [vm_compute; reflexivity|]).
  apply List.Forall_nil.
Defined.

Lemma has_in_cache_check_returns_true_witness :
  Harness.test_has_in_cache cache_manager keys start = (Return true, start).
Proof.
  assert (Hdir : disk start !! cache_folder_path cache_manager = Some Dir)
    by (vm_compute; reflexivity).
  assert (Hend : os.endswith_sep (cache_folder_path cache_manager) = false)
    by reflexivity.
  exact (has_in_cache_check_returns_true cache_manager keys start Hdir Hend
           keys_free_at_start).
Defined.

Lemma retrieve_check_returns_true_witness :
  Harness.test_retrieve_from_cache cache_manager keys start = (Return true, start).
Proof.
  assert (Hdir : disk start !! cache_folder_path cache_manager = Some Dir)
    by (vm_compute; reflexivity).
  assert (Hend : os.endswith_sep (cache_folder_path cache_manager) = false)
    by reflexivity.
  exact (retrieve_check_returns_true cache_manager keys start Hdir Hend
           keys_free_at_start).
Defined.

Lemma clear_check_returns_true_witness :
  Harness.test_clear_from_cache cache_manager keys start = (Return true, start).
Proof.
  assert (Hdir : disk start !! cache_folder_path cache_manager = Some Dir)
    by (vm_compute; reflexivity).
  assert (Hend : os.endswith_sep (cache_folder_path cache_manager) = false)
    by reflexivity.
  exact (clear_check_returns_true cache_manager keys start Hdir Hend
           keys_free_at_start).
Defined.

Lemma put_check_returns_true_witness :
  Harness.test_put_in_cache cache_manager keys start = (Return true, start).
Proof.
  assert (Hdir : disk start !! cache_folder_path cache_manager = Some Dir)
    by (vm_compute; reflexivity).
  assert (Hend : os.endswith_sep (cache_folder_path cache_manager) = false)
    by reflexivity.
  exact (put_check_returns_true cache_manager keys start Hdir Hend
           keys_free_at_start).
Defined.

Lemma memoize_keys_independent_witness :
  let w1 := World (<[locate cache_manager "expensive_name" := File hello_pickle]>
                     (disk start)) 1 (S (calls start)) in
  let w2 := World (<[locate cache_manager "other_name" := File xyz_pickle]>
                     (disk w1)) 2 (S (S (calls start))) in
  memoize cache_manager "expensive_name" expensive_function hello start
  = (Return (PyStr "Hello World!"), w1) /\
  memoize cache_manager "other_name" other_function other_args w1
  = (Return (PyStr "X-Y-Z"), w2) /\
  memoize cache_manager "expensive_name" expensive_function other_args w2
  = (Return (PyStr "Hello World!"), w2) /\
  memoize cache_manager "other_name" other_function hello w2
  = (Return (PyStr "X-Y-Z"), w2).
Proof.
  assert (Hdig : str_to_hash "expensive_name" <> str_to_hash "other_name")
    by (vm_compute; discriminate).
  assert (Hdir : disk start !! cache_folder_path cache_manager = Some Dir)
    by (vm_compute; reflexivity).
  assert (Hend : os.endswith_sep (cache_folder_path cache_manager) = false)
    by reflexivity.
  assert (Hn1 : disk start !! locate cache_manager "expensive_name" = None)
    by (vm_compute; reflexivity).
  assert (Hn2 : disk start !! locate cache_manager "other_name" = None)
    by (vm_compute; reflexivity).
  assert (Hr1 : expensive_function hello (heap start)
                = (Return (PyStr "Hello World!"), 1)) by (vm_compute; reflexivity).
  assert (Hr2 : other_function other_args 1 = (Return (PyStr "X-Y-Z"), 2))
    by (vm_compute; reflexivity).
  assert (Hv1 : pickle_dumps (PyStr "Hello World!") = Dumped hello_pickle)
    by (vm_compute; reflexivity).
  assert (Hv2 : pickle_dumps (PyStr "X-Y-Z") = Dumped xyz_pickle)
    by (vm_compute; reflexivity).
  exact (memoize_keys_independent cache_manager "expensive_name" "other_name"
           expensive_function other_function hello other_args other_args hello
           start _ _ _ _ _ _ Hdig Hdir Hend Hn1 Hn2 Hr1 Hr2 Hv1 Hv2).
Defined.
